(** * Convertor_Currency: the rate cache and the lookups over it

    A shallow embedding of [api_client.py], [storage.py] and, of
    [cli.py], the "update now" branch, the prompts, the listing and the
    search.

    - Python values that reach this code are exactly the values [json.load]
      and [response.json()] produce, so one type [json] stands for them;
      [JNull] is Python's [None].
    - The file system, the wall clock, the rate provider and the log of
      I/O calls form a [World]; every function that touches one of them is
      an action of the state monad [IO]. Time passes after each reading of
      the clock.
    - An exception raised inside a [try] block is a [Raise] of the result
      type [res]; the [except] clauses of the source are the matches on it.
    - Console output ([print]) is not modelled. *)

From Stdlib Require Import Floats ZArith String List Bool Lia.
From stdpp Require Import gmap strings list sorting.
Import ListNotations.

Set Warnings "-inexact-float,-register-all".
Local Open Scope string_scope.
Local Open Scope Z_scope.

(** ** Python values *)

Inductive json : Type :=
| JNull
| JBool (b : bool)
| JInt (z : Z)
| JFloat (f : float)
| JStr (s : string)
| JArr (l : list json)
| JObj (d : list (string * json)).

(** A Python [dict] with string keys keeps its insertion order: an
    association list, read by first match. *)
Abbreviation dict := (list (string * json)).

Fixpoint dict_get (k : string) (d : dict) : option json :=
  match d with
  | [] => None
  | (k', v) :: d' => if String.eqb k k' then Some v else dict_get k d'
  end.

Definition dict_keys (d : dict) : list string := map fst d.

Definition dict_has (k : string) (d : dict) : bool :=
  match dict_get k d with Some _ => true | None => false end.

(** [d[k] = v]: an existing key keeps its position, a new key goes last. *)
Fixpoint dict_set (k : string) (v : json) (d : dict) : dict :=
  match d with
  | [] => [(k, v)]
  | (k', v') :: d' =>
      if String.eqb k k' then (k, v) :: d' else (k', v') :: dict_set k v d'
  end.

(** ** Exceptions and results *)

Inductive exn : Type :=
| KeyError (k : string)
| IndexError
| TypeError
| AttributeError
| OverflowError
| ValueError.

Inductive res (A : Type) : Type :=
| Ok (a : A)
| Raise (e : exn).
Arguments Ok {A} a.
Arguments Raise {A} e.

Definition res_bind {A B} (r : res A) (k : A -> res B) : res B :=
  match r with
  | Ok a => k a
  | Raise e => Raise e
  end.

Notation "x <~ r ;; k" := (res_bind r (fun x => k))
  (at level 100, r at next level, right associativity).

(** ** The Python operations the source applies to these values *)

(** [bool(v)], as used by [if data:] and [not data]. *)
Definition truthy (v : json) : bool :=
  match v with
  | JNull => false
  | JBool b => b
  | JInt z => negb (z =? 0)
  | JFloat f => negb (PrimFloat.eqb f 0%float)
  | JStr s => negb (String.eqb s "")
  | JArr l => match l with [] => false | _ => true end
  | JObj d => match d with [] => false | _ => true end
  end.

(** [sub in s] on strings. *)
Fixpoint str_contains (sub s : string) : bool :=
  String.prefix sub s ||
  match s with
  | EmptyString => false
  | String _ s' => str_contains sub s'
  end.

Definition is_str (k : string) (v : json) : bool :=
  match v with
  | JStr s => String.eqb k s
  | _ => false
  end.

(** [k in v] for a string [k]: key test on a dict, element test on a
    list, substring test on a string, [TypeError] on the rest. *)
Definition py_contains (k : string) (v : json) : res bool :=
  match v with
  | JObj d => Ok (dict_has k d)
  | JArr l => Ok (existsb (is_str k) l)
  | JStr s => Ok (str_contains k s)
  | _ => Raise TypeError
  end.

(** [v[k]] for a string [k]. *)
Definition py_getitem (v : json) (k : string) : res json :=
  match v with
  | JObj d =>
      match dict_get k d with
      | Some x => Ok x
      | None => Raise (KeyError k)
      end
  | _ => Raise TypeError
  end.

(** [list(v.keys())]. *)
Definition py_keys (v : json) : res (list string) :=
  match v with
  | JObj d => Ok (dict_keys d)
  | _ => Raise AttributeError
  end.

(** [l[0]]. *)
Definition py_first (l : list string) : res string :=
  match l with
  | [] => Raise IndexError
  | x :: _ => Ok x
  end.

(** [v.get(k)]. *)
Definition py_get (v : json) (k : string) : res json :=
  match v with
  | JObj d =>
      match dict_get k d with
      | Some x => Ok x
      | None => Ok JNull
      end
  | _ => Raise AttributeError
  end.

(** [float(z)] for a Python [int]: round to nearest even, [OverflowError]
    when the result does not fit a binary64. *)
Definition float_of_int (z : Z) : option float :=
  let f := SF2Prim (SpecFloat.binary_normalize prec emax z 0 false) in
  if PrimFloat.is_infinity f then None else Some f.

(** [amount * v] for a float [amount]. *)
Definition py_float_mul (amount : float) (v : json) : res json :=
  match v with
  | JFloat f => Ok (JFloat (amount * f)%float)
  | JInt z =>
      match float_of_int z with
      | Some f => Ok (JFloat (amount * f)%float)
      | None => Raise OverflowError
      end
  | JBool b => Ok (JFloat (amount * (if b then 1 else 0))%float)
  | _ => Raise TypeError
  end.

(** ** The world: cache files, clock, rate provider, I/O log *)

(** What a file holds, up to what [json.load] makes of it. The only
    documents this code writes are dicts ([save_to_file] takes a
    [Dict[str, Any]]), so a cut document is a cut dict. *)
Inductive content : Type :=
| Dump (v : json)                  (* a complete JSON document decoding to [v] *)
| PartialDump (d : dict) (n : nat) (* only the first [n] characters of the
                                      document for the dict [d], cut before
                                      its closing brace *)
| Raw (s : string).                (* any other text that is not JSON *)

(** Modification times and the clock are local wall-clock readings in
    microseconds, the resolution of [datetime], counted from
    1970-01-01T00:00:00 local time. *)
Record file : Type := File { body : content; mtime : Z }.

(** Outcome of [requests.get(URL, timeout=10)] followed by
    [response.json()]: a transport failure, or a status code with a body
    that decodes to JSON ([Some]) or does not ([None]). *)
Inductive response : Type :=
| Unreachable
| Reply (status : Z) (payload : option json).

(** How the next write of a document ends: it completes; the file cannot
    be opened; or it stops after [n] characters, whether the disk or the
    encoder raised. *)
Inductive disk_fault : Type :=
| NoFault
| OpenFails
| WriteFailsAfter (n : nat).

Inductive event : Type :=
| EvStat (path : string)
| EvRead (path : string)
| EvWrite (path : string)
| EvFetch (code : string).

(** [now] is what the clock shows; [later] lists the time that passes, in
    microseconds, after each of its coming readings. The clock is read by
    [datetime.now()] and by the file system when it stamps a write, and it
    never runs backwards. *)
Record World : Type := MkWorld {
  fs : gmap string file;
  now : Z;
  net : string -> response;
  fault : disk_fault;
  trace : list event;
  later : list N
}.

Definition IO (A : Type) : Type := World -> A * World.

Definition ret {A} (a : A) : IO A := fun w => (a, w).

Definition bind {A B} (m : IO A) (k : A -> IO B) : IO B :=
  fun w => let (a, w') := m w in k a w'.

Notation "x <- m ;; k" := (bind m (fun x => k))
  (at level 100, m at next level, right associativity).
Notation "m ;; k" := (bind m (fun _ => k))
  (at level 100, right associativity).

Definition eval {A} (m : IO A) (w : World) : A := fst (m w).
Definition exec {A} (m : IO A) (w : World) : World := snd (m w).

(** The world after one more I/O call has been logged. *)
Definition log (e : event) (w : World) : World :=
  MkWorld (fs w) (now w) (net w) (fault w) (trace w ++ [e]) (later w).

Definition emit (e : event) : IO unit := fun w => (tt, log e w).

Definition get_world : IO World := fun w => (w, w).

Definition put_file (path : string) (f : file) : IO unit := fun w =>
  (tt, MkWorld (<[path := f]> (fs w)) (now w) (net w) (fault w) (trace w)
               (later w)).

(** The world once the clock has been read: the next stretch of time has
    passed. *)
Definition advance (w : World) : World :=
  match later w with
  | [] => w
  | d :: rest =>
      MkWorld (fs w) (now w + Z.of_N d) (net w) (fault w) (trace w) rest
  end.

Definition read_clock : IO Z := fun w => (now w, advance w).

Definition is_fetch (e : event) : bool :=
  match e with
  | EvFetch _ => true
  | _ => false
  end.

(** How many times the rate provider was called in a log. *)
Definition fetch_count (t : list event) : nat :=
  length (List.filter is_fetch t).

Definition HOUR : Z := 3600 * 1000000.
Definition DAY : Z := 24 * HOUR.

(** [datetime] holds the years 1 to 9999: from 0001-01-01T00:00:00 to
    9999-12-31T23:59:59.999999. Building one outside raises. *)
Definition DATETIME_MIN : Z := - 62135596800 * 1000000.
Definition DATETIME_MAX : Z := 253402300800 * 1000000 - 1.

Definition in_datetime (t : Z) : bool :=
  (DATETIME_MIN <=? t) && (t <=? DATETIME_MAX).

(** [datetime.fromtimestamp(t)] and [datetime.now()] at reading [t]. *)
Definition datetime_of (t : Z) : res Z :=
  if in_datetime t then Ok t else Raise ValueError.

(** [timedelta] holds from -999999999 days to 999999999 days
    23:59:59.999999. *)
Definition in_timedelta (us : Z) : bool :=
  (- 999999999 * DAY <=? us) && (us <? 1000000000 * DAY).

(** [timedelta(hours=hours)]. *)
Definition timedelta_hours (hours : Z) : res Z :=
  if in_timedelta (hours * HOUR) then Ok (hours * HOUR)
  else Raise OverflowError.

(** ** api_client.py *)

Definition FAVORITE_CURRENCIES : list string := ["USD"; "EUR"; "GBP"; "RUB"].

(** The value [get_currency_rate] returns for a given outcome of the
    request: the body of its [try], with both [except] clauses. *)
Definition rate_reply (r : response) : json :=
  match r with
  | Unreachable => JNull
  | Reply status payload =>
      if negb (status =? 200) then JNull
      else match payload with
           | None => JNull
           | Some data =>
               match py_get data "result" with
               | Ok v => if is_str "success" v then data else JNull
               | Raise _ => JNull
               end
           end
  end.

(** One request per call, logged; [None] is a failed fetch. *)
Definition get_currency_rate (currency_code : string) : IO json :=
  emit (EvFetch currency_code) ;;
  w <- get_world ;;
  ret (rate_reply (net w currency_code)).

(** The [for currency in FAVORITE_CURRENCIES] loop, [all_data] threaded. *)
Fixpoint update_loop (codes : list string) (all_data : dict) : IO dict :=
  match codes with
  | [] => ret all_data
  | currency :: rest =>
      rate_data <- get_currency_rate currency ;;
      if truthy rate_data
      then update_loop rest (dict_set currency rate_data all_data)
      else update_loop rest all_data
  end.

Definition update_currency_rates : IO json :=
  all_data <- update_loop FAVORITE_CURRENCIES [] ;;
  ret (JObj all_data).

(** ** storage.py *)

Definition default_filename : string := "currency.json".

(** [json.load] on the text of a file; [JSONDecodeError] is [None]. The
    only documents written here are dicts, which end with their closing
    brace, so a document cut before its end never decodes. *)
Definition json_load (c : content) : option json :=
  match c with
  | Dump v => Some v
  | PartialDump _ _ => None
  | Raw _ => None
  end.

(** [open(filename, 'w')] truncates the file itself; [json.dump] then
    streams the document into it. Every exception is caught. A file that
    was opened is stamped with the reading of the clock. *)
Definition save_to_file (data : dict) (filename : string) : IO unit :=
  emit (EvWrite filename) ;;
  w <- get_world ;;
  match fault w with
  | OpenFails => ret tt
  | NoFault =>
      stamp <- read_clock ;;
      put_file filename (File (Dump (JObj data)) stamp)
  | WriteFailsAfter n =>
      stamp <- read_clock ;;
      put_file filename (File (PartialDump data n) stamp)
  end.

(** A missing file and a file that does not decode both give [None]; so
    does a file holding the document [null]. *)
Definition read_from_file (filename : string) : IO json :=
  emit (EvRead filename) ;;
  w <- get_world ;;
  match fs w !! filename with
  | None => ret JNull
  | Some f =>
      match json_load (body f) with
      | Some data => ret data
      | None => ret JNull
      end
  end.

(** The comparison [now - file_datetime < timedelta(hours=hours)] of
    [is_file_recent], between a reading of the clock and a datetime. *)
Definition compare_age (file_datetime now_time hours : Z) : res bool :=
  now_datetime <~ datetime_of now_time ;;
  delta <~ timedelta_hours hours ;;
  Ok (now_datetime - file_datetime <? delta).

(** [os.path.exists], then, inside the [try], [os.path.getmtime],
    [datetime.fromtimestamp] and the comparison with [datetime.now()].
    The [except] clause turns every exception into [False]. A file that
    vanishes between the two calls does not exist in this world. *)
Definition is_file_recent (file_path : string) (hours : Z) : IO bool :=
  emit (EvStat file_path) ;;
  w <- get_world ;;
  match fs w !! file_path with
  | None => ret false
  | Some f =>
      emit (EvStat file_path) ;;
      match datetime_of (mtime f) with
      | Raise _ => ret false
      | Ok file_datetime =>
          now_time <- read_clock ;;
          match compare_age file_datetime now_time hours with
          | Ok recent => ret recent
          | Raise _ => ret false
          end
      end
  end.

(** The tail of [load_or_update_data], from [update_currency_rates()] on.
    What [update_currency_rates] returns is the dict it built. *)
Definition refresh (filename : string) : IO json :=
  all_data <- update_currency_rates ;;
  match all_data with
  | JObj d =>
      if truthy all_data
      then save_to_file d filename ;; ret all_data
      else ret JNull
  | _ => ret JNull
  end.

(** The [try] around [read_from_file] guards a call that never raises. *)
Definition load_or_update_data (filename : string) : IO json :=
  recent <- is_file_recent filename 24 ;;
  if recent
  then data <- read_from_file filename ;;
       if truthy data then ret data else refresh filename
  else refresh filename.

(** The three messages [get_exchange_rate] builds, by kind. Each is an
    f-string with a fixed non-empty part, hence a true value for the
    [if error:] of [convert_currency]. *)
Inductive lookup_error : Type :=
| BaseNotFound (base_currency : string)
| TargetNotFound (target_currency : string)
| LookupFailed (e : exn).

(** A returned pair [(value, error)]; an absent error is [None]. *)
Abbreviation outcome := (json * option lookup_error)%type.

(** The [try] block of [get_available_currencies], after the read. *)
Definition available_try (data : json) : res (list string) :=
  if negb (truthy data) then Ok []
  else
    bases <~ py_keys data ;;
    first_base <~ py_first bases ;;
    entry <~ py_getitem data first_base ;;
    rates <~ py_getitem entry "rates" ;;
    py_keys rates.

Definition get_available_currencies : IO (list string) :=
  data <- read_from_file default_filename ;;
  match available_try data with
  | Ok currencies => ret currencies
  | Raise _ => ret []
  end.

(** The [try] block of [get_exchange_rate], after the read. *)
Definition exchange_rate_try (data : json) (base_currency target_currency : string)
  : res outcome :=
  if negb (truthy data) then Ok (JNull, Some (BaseNotFound base_currency))
  else
    has_base <~ py_contains base_currency data ;;
    if negb has_base then Ok (JNull, Some (BaseNotFound base_currency))
    else
      entry <~ py_getitem data base_currency ;;
      rates <~ py_getitem entry "rates" ;;
      has_target <~ py_contains target_currency rates ;;
      if negb has_target then Ok (JNull, Some (TargetNotFound target_currency))
      else
        rate <~ py_getitem rates target_currency ;;
        Ok (rate, None).

Definition get_exchange_rate (base_currency target_currency : string) : IO outcome :=
  data <- read_from_file default_filename ;;
  match exchange_rate_try data base_currency target_currency with
  | Ok r => ret r
  | Raise e => ret (JNull, Some (LookupFailed e))
  end.

(** No [try] here: an exception of [amount * rate] leaves the function. *)
Definition convert_currency (amount : float) (base_currency target_currency : string)
  : IO (res outcome) :=
  r <- get_exchange_rate base_currency target_currency ;;
  match snd r with
  | Some error => ret (Ok (JNull, Some error))
  | None =>
      ret (converted_amount <~ py_float_mul amount (fst r) ;;
           Ok (converted_amount, None))
  end.

(** ** cli.py *)

(** Branch [choice == "4"] of the loop of [main]: the fetched data is
    dropped. *)
Definition main_choice_4 : IO unit :=
  update_currency_rates ;;
  ret tt.

(** ** Vocabulary of the specification *)

(** What a read of [path] yields in world [w]. *)
Definition cache_value (w : World) (path : string) : json :=
  match fs w !! path with
  | None => JNull
  | Some f =>
      match json_load (body f) with
      | Some data => data
      | None => JNull
      end
  end.

(** What a fetch of [code] yields in world [w]; [JNull] is a failed fetch. *)
Definition fetched (w : World) (code : string) : json := rate_reply (net w code).

(** The rate table of a base entry: the dict under its ["rates"] key. *)
Definition entry_rates (entry : json) : option dict :=
  match entry with
  | JObj e =>
      match dict_get "rates" e with
      | Some (JObj r) => Some r
      | _ => None
      end
  | _ => None
  end.

(** The number a stored rate stands for, when it is a number. *)
Definition rate_value (v : json) : option float :=
  match v with
  | JFloat f => Some f
  | JInt z => float_of_int z
  | _ => None
  end.

Definition all_rates (P : json -> bool) (d : dict) : bool :=
  forallb (fun be =>
    match entry_rates (snd be) with
    | Some r => forallb (fun tv => P (snd tv)) r
    | None => false
    end) d.

(** Whether a stored rate is a number. *)
Definition is_number (v : json) : bool :=
  match rate_value v with Some _ => true | None => false end.

(** Every rate of a valid snapshot is a positive finite number. *)
Definition positive_finite (f : float) : bool :=
  (PrimFloat.ltb 0 f && PrimFloat.ltb f infinity)%float.

Definition is_valid_rate (v : json) : bool :=
  match rate_value v with Some f => positive_finite f | None => false end.

Definition valid_snapshot (d : dict) : bool := all_rates is_valid_rate d.

(** A returned pair carries a value and no error, or an error and no value. *)
Definition exactly_one (r : outcome) : Prop :=
  (fst r <> JNull /\ snd r = None) \/ (fst r = JNull /\ snd r <> None).

(** A cache is usable when the file exists, is less than 24 hours old and
    decodes to a true value; it is not when the file is missing, stale or
    unparseable. *)
Definition usable_cache (w : World) (path : string) : bool :=
  match fs w !! path with
  | None => false
  | Some f =>
      (now w - mtime f <? 24 * HOUR) &&
      match json_load (body f) with
      | Some data => truthy data
      | None => false
      end
  end.

(** What the freshness test answers for a file stamped [file_time] when
    the clock shows [now_time]: both must be datetimes and the window a
    timedelta, and the age must be strictly less than the window. *)
Definition recent_at (file_time now_time hours : Z) : bool :=
  in_datetime file_time && in_datetime now_time
  && in_timedelta (hours * HOUR)
  && (now_time - file_time <? hours * HOUR).

(** The rate the cache file stores for a pair, when its content has the
    shape that leads to one. *)
Definition stored_rate (w : World) (base target : string) : option json :=
  match cache_value w default_filename with
  | JObj d =>
      match dict_get base d with
      | Some entry =>
          match entry_rates entry with
          | Some r => dict_get target r
          | None => None
          end
      | None => None
      end
  | _ => None
  end.

(** [w'] is [w] after some I/O calls [io] that wrote no file: the same
    files, provider and disk, a longer log, a clock that has not gone
    back. *)
Definition extends (w w' : World) (io : list event) : Prop :=
  fs w' = fs w /\ net w' = net w /\ fault w' = fault w
  /\ trace w' = (trace w ++ io)%list /\ now w <= now w'.

(** The world after a batch of I/O calls has been logged. *)
Definition log_all (es : list event) (w : World) : World :=
  MkWorld (fs w) (now w) (net w) (fault w) (trace w ++ es) (later w).

(** The dict the refresh loop builds from [acc] over [codes]. *)
Definition collect (w : World) (codes : list string) (acc : dict) : dict :=
  fold_left
    (fun acc c => if truthy (fetched w c) then dict_set c (fetched w c) acc else acc)
    codes acc.

(** ** Sample data *)

Definition usd_rates_old : json :=
  JObj [("result", JStr "success");
        ("rates", JObj [("USD", JInt 1); ("EUR", JFloat 0.5); ("RUB", JFloat 95)])].

Definition usd_rates_new : json :=
  JObj [("result", JStr "success");
        ("rates", JObj [("USD", JInt 1); ("EUR", JFloat 0.9); ("RUB", JFloat 95)])].

Definition snapshot_old : dict := [("USD", usd_rates_old)].
Definition snapshot_new : dict := [("USD", usd_rates_new)].

(** Only the USD request succeeds. *)
Definition usd_only (code : string) : response :=
  if String.eqb code "USD" then Reply 200 (Some usd_rates_new) else Unreachable.

(** One second passes after each reading of the clock. *)
Definition seconds : list N := [1000000; 1000000; 1000000; 1000000]%N.

(** A cache written 25 hours ago. *)
Definition stale_world : World :=
  MkWorld {[ default_filename := File (Dump (JObj snapshot_old)) 0 ]}
          (25 * HOUR) usd_only NoFault [] seconds.

(** A cache written one hour ago. *)
Definition fresh_world : World :=
  MkWorld {[ default_filename := File (Dump (JObj snapshot_old)) (24 * HOUR) ]}
          (25 * HOUR) usd_only NoFault [] seconds.

(** A cache written one second less than 24 hours ago. *)
Definition aging_world : World :=
  MkWorld {[ default_filename := File (Dump (JObj snapshot_old)) 1000000 ]}
          (24 * HOUR) usd_only NoFault [] seconds.


(** The stale cache with the provider out of reach. *)
Definition offline_world : World :=
  MkWorld {[ default_filename := File (Dump (JObj snapshot_old)) 0 ]}
          (25 * HOUR) (fun _ => Unreachable) NoFault [] seconds.

(** No cache, and a provider whose USD reply reports success without a
    rate table, or with a rate table holding [null]. *)
Definition bare_reply_world : World :=
  MkWorld ∅ (25 * HOUR)
    (fun code =>
       if String.eqb code "USD"
       then Reply 200 (Some (JObj [("result", JStr "success")]))
       else Unreachable)
    NoFault [] seconds.

Definition null_rate_world : World :=
  MkWorld ∅ (25 * HOUR)
    (fun code =>
       if String.eqb code "USD"
       then Reply 200 (Some (JObj [("result", JStr "success");
                                   ("rates", JObj [("EUR", JNull)])]))
       else Unreachable)
    NoFault [] seconds.

(** The same stale cache on a disk that fails after 10 characters. *)
Definition failing_disk_world : World :=
  MkWorld {[ default_filename := File (Dump (JObj snapshot_old)) 0 ]}
          (25 * HOUR) usd_only (WriteFailsAfter 10) [] [].


(** A cache file holding [data], whatever it is. *)
Definition cache_of (data : json) : World :=
  MkWorld {[ default_filename := File (Dump data) 0 ]} 0 usd_only NoFault [] [].

(** The snapshot of the specification's scenario. *)
Definition scenario_world : World :=
  cache_of (JObj [("USD", JObj [("rates",
    JObj [("USD", JFloat 1); ("EUR", JFloat 0.9); ("RUB", JFloat 95)])])]).

(** A cache file that is not JSON. *)
Definition garbled_world : World :=
  MkWorld {[ default_filename := File (Raw "{not json") 0 ]} 0 usd_only NoFault [] [].

(** No cache file; the disk accepts, or refuses, the write. *)
Definition empty_world : World := MkWorld ∅ (25 * HOUR) usd_only NoFault [] [].
Definition readonly_world : World := MkWorld ∅ (25 * HOUR) usd_only OpenFails [] [].

(** The file a save leaves at its path, if it changes it at all. *)
Definition written (data : dict) (w : World) : option file :=
  match fault w with
  | NoFault => Some (File (Dump (JObj data)) (now w))
  | OpenFails => None
  | WriteFailsAfter n => Some (File (PartialDump data n) (now w))
  end.

(** ** cli.py: prompts and listing *)

(** The world with another disk behaviour. *)
Definition with_fault (ft : disk_fault) (w : World) : World :=
  MkWorld (fs w) (now w) (net w) ft (trace w) (later w).

(** Standard input is the list of lines still to be read; [input()] takes
    the first one and raises [EOFError], here [None], when none is left.
    Nothing in [cli.py] catches that exception. *)
Section Prompts.

(** [s.strip().upper()] and [float(s)] ([None] is [ValueError]) are
    Python built-ins, taken as given. *)
Variable strip_upper : string -> string.
Variable py_float : string -> option float.

(** The [while True] loop of [get_valid_currency]: one line per turn. *)
Fixpoint get_valid_currency (stdin : list string)
  : IO (option string * list string) :=
  match stdin with
  | [] => ret (None, [])
  | line :: rest =>
      let currency := strip_upper line in
      if String.eqb currency "" then get_valid_currency rest
      else
        available <- get_available_currencies ;;
        if existsb (String.eqb currency) available
        then ret (Some currency, rest)
        else get_valid_currency rest
  end.

(** The [while True] loop of [get_valid_amount]. *)
Fixpoint get_valid_amount (stdin : list string) : option float * list string :=
  match stdin with
  | [] => (None, [])
  | line :: rest =>
      match py_float line with
      | None => get_valid_amount rest
      | Some amount =>
          if PrimFloat.leb amount 0 then get_valid_amount rest
          else (Some amount, rest)
      end
  end.

End Prompts.

(** [sorted(found)] on strings: ascending in the order of [<=] on [str],
    which compares code points, as the byte order of UTF-8 does. *)
Definition str_le (a b : string) : Prop := String.leb a b = true.

#[global] Instance str_le_dec (a b : string) : Decision (str_le a b) :=
  bool_eq_dec (String.leb a b) true.

Definition py_sorted (l : list string) : list string := merge_sort str_le l.

(** The codes [search_currency_interface] prints for the line it reads;
    none when it reports that nothing was found. *)
Definition search_currency_interface (strip_upper : string -> string)
  (stdin : list string) : IO (option (list string) * list string) :=
  match stdin with
  | [] => ret (None, [])
  | line :: rest =>
      let search_term := strip_upper line in
      available <- get_available_currencies ;;
      let found := List.filter (str_contains search_term) available in
      ret (Some (py_sorted found), rest)
  end.

(** The rows [display_available_currencies] prints, as lists of codes:
    [currencies[i:i+10]] for [i] in [range(0, len(currencies), 10)]. *)
Definition display_rows (currencies : list string) : list (list string) :=
  map (fun k => firstn 10 (skipn (10 * k) currencies))
      (seq 0 ((length currencies + 9) / 10)%nat).

Definition display_available_currencies : IO (list (list string)) :=
  currencies <- get_available_currencies ;;
  ret (display_rows currencies).

(** Stand-ins for the built-ins on plain ASCII input, for the examples. *)
Definition ascii_upper (c : Ascii.ascii) : Ascii.ascii :=
  let n := Ascii.nat_of_ascii c in
  if ((97 <=? n) && (n <=? 122))%nat then Ascii.ascii_of_nat (n - 32) else c.

Fixpoint drop_spaces (s : string) : string :=
  match s with
  | String c s' =>
      if Ascii.eqb c (Ascii.ascii_of_nat 32) then drop_spaces s' else s
  | EmptyString => s
  end.

Fixpoint map_string (f : Ascii.ascii -> Ascii.ascii) (s : string) : string :=
  match s with
  | EmptyString => EmptyString
  | String c s' => String (f c) (map_string f s')
  end.

Definition sample_strip_upper (s : string) : string :=
  map_string ascii_upper
    (String.rev (drop_spaces (String.rev (drop_spaces s)))).

Definition sample_float (s : string) : option float :=
  if String.eqb s "100" then Some 100%float
  else if String.eqb s "0" then Some 0%float
  else if String.eqb s "-5" then Some (-5)%float
  else None.

(** * Properties *)

(** ** Dictionaries *)

Section Dict.

Lemma dict_get_In k d v : dict_get k d = Some v -> In (k, v) d.
Proof.
  induction d as [|[k' v'] d IH]; simpl; [discriminate|].
  destruct (String.eqb_spec k k') as [->|_].
  - intros [= ->]. now left.
  - intros H. right. now apply IH.
Qed.

Lemma dict_get_keys k d : dict_get k d <> None <-> In k (dict_keys d).
Proof.
  induction d as [|[k' v'] d IH]; simpl.
  - split; [congruence | tauto].
  - destruct (String.eqb_spec k k') as [->|Hne].
    + split; [now left | congruence].
    + rewrite IH. split; [now right|]. intros [E|H]; [congruence | exact H].
Qed.

Lemma dict_get_None k d : dict_get k d = None <-> ~ In k (dict_keys d).
Proof.
  rewrite <- dict_get_keys. destruct (dict_get k d); split; try congruence.
  intros H. now contradiction H.
Qed.

Lemma dict_has_true k d v : dict_get k d = Some v -> dict_has k d = true.
Proof. unfold dict_has. now intros ->. Qed.

Lemma dict_has_false k d : dict_get k d = None -> dict_has k d = false.
Proof. unfold dict_has. now intros ->. Qed.

Lemma dict_get_set c k v d :
  dict_get c (dict_set k v d) = if String.eqb c k then Some v else dict_get c d.
Proof.
  induction d as [|[k' v'] d IH]; simpl.
  - reflexivity.
  - destruct (String.eqb_spec k k') as [->|Hkk']; simpl.
    + destruct (String.eqb c k'); reflexivity.
    + rewrite IH. destruct (String.eqb_spec c k') as [->|_]; [|reflexivity].
      destruct (String.eqb_spec k' k); [congruence | reflexivity].
Qed.

Lemma dict_get_nonempty k d v : dict_get k d = Some v -> truthy (JObj d) = true.
Proof. destruct d; [discriminate | reflexivity]. Qed.

Lemma existsb_eqb_In c codes : existsb (String.eqb c) codes = true <-> In c codes.
Proof.
  rewrite existsb_exists. split.
  - intros (x & Hx & E). apply String.eqb_eq in E. now subst.
  - intros H. exists c. split; [exact H | apply String.eqb_refl].
Qed.

End Dict.

(** ** One step of each action *)

Section Runs.

Lemma read_from_file_run path w :
  read_from_file path w = (cache_value w path, log (EvRead path) w).
Proof.
  unfold read_from_file, cache_value, bind, emit, get_world, ret. simpl.
  destruct (fs w !! path) as [f|]; [destruct (json_load (body f))|]; reflexivity.
Qed.

Lemma get_currency_rate_run code w :
  get_currency_rate code w = (fetched w code, log (EvFetch code) w).
Proof. reflexivity. Qed.

Lemma log_all_nil w : log_all [] w = w.
Proof. destruct w. unfold log_all. simpl. now rewrite app_nil_r. Qed.

Lemma log_all_cons e es w : log_all es (log e w) = log_all (e :: es) w.
Proof. unfold log_all, log. simpl. now rewrite <- app_assoc. Qed.

Lemma update_loop_run codes : forall acc w,
  update_loop codes acc w = (collect w codes acc, log_all (map EvFetch codes) w).
Proof.
  induction codes as [|c rest IH]; intros acc w; simpl.
  - unfold ret. now rewrite log_all_nil.
  - unfold bind. rewrite get_currency_rate_run.
    destruct (truthy (fetched w c)); rewrite IH, log_all_cons; reflexivity.
Qed.

Lemma update_currency_rates_run w :
  update_currency_rates w =
  (JObj (collect w FAVORITE_CURRENCIES []),
   log_all (map EvFetch FAVORITE_CURRENCIES) w).
Proof.
  unfold update_currency_rates, bind. now rewrite update_loop_run.
Qed.

Lemma fetch_count_app t1 t2 : fetch_count (t1 ++ t2) = (fetch_count t1 + fetch_count t2)%nat.
Proof. unfold fetch_count. now rewrite List.filter_app, length_app. Qed.

End Runs.

(** ** The refresh path *)

Section Refresh.

Lemma rate_reply_truthy r : rate_reply r <> JNull -> truthy (rate_reply r) = true.
Proof.
  destruct r as [|status [data|]]; simpl; try congruence;
    destruct (negb (status =? 200)); try congruence.
  destruct data as [| | | | | |d]; try (simpl; congruence).
  unfold py_get. destruct (dict_get "result" d) as [v|] eqn:E.
  - destruct (is_str "success" v); [|congruence].
    intros _. now apply dict_get_nonempty with "result" v.
  - simpl. congruence.
Qed.

Lemma fetched_ok w c : truthy (fetched w c) = true <-> fetched w c <> JNull.
Proof.
  split.
  - intros H E. rewrite E in H. discriminate.
  - apply rate_reply_truthy.
Qed.

Lemma cache_value_log e w path : cache_value (log e w) path = cache_value w path.
Proof. reflexivity. Qed.

Lemma collect_log e w codes acc : collect (log e w) codes acc = collect w codes acc.
Proof. reflexivity. Qed.

Lemma collect_get w codes : forall acc c,
  dict_get c (collect w codes acc) =
  if existsb (String.eqb c) codes && truthy (fetched w c)
  then Some (fetched w c) else dict_get c acc.
Proof.
  induction codes as [|k rest IH]; intros acc c; [reflexivity|].
  change (collect w (k :: rest) acc) with
    (collect w rest
       (if truthy (fetched w k) then dict_set k (fetched w k) acc else acc)).
  rewrite IH. simpl existsb.
  destruct (String.eqb_spec c k) as [->|Hne]; simpl.
  - destruct (truthy (fetched w k)); simpl.
    + rewrite dict_get_set, String.eqb_refl. now destruct (existsb _ rest).
    + now rewrite andb_false_r.
  - destruct (existsb (String.eqb c) rest && truthy (fetched w c)); [reflexivity|].
    destruct (truthy (fetched w k)); [|reflexivity].
    rewrite dict_get_set. now destruct (String.eqb_spec c k).
Qed.

Lemma collect_keys w codes c :
  In c (dict_keys (collect w codes [])) <-> In c codes /\ fetched w c <> JNull.
Proof.
  rewrite <- dict_get_keys, collect_get, <- fetched_ok, <- existsb_eqb_In.
  destruct (existsb (String.eqb c) codes), (truthy (fetched w c)); simpl;
    intuition congruence.
Qed.

Lemma collect_value w codes c :
  In c (dict_keys (collect w codes [])) ->
  dict_get c (collect w codes []) = Some (fetched w c).
Proof.
  intros H. apply collect_keys in H as [Hin Hok].
  rewrite collect_get.
  apply existsb_eqb_In in Hin. apply fetched_ok in Hok.
  now rewrite Hin, Hok.
Qed.

Lemma collect_none w codes :
  (forall c, In c codes -> fetched w c = JNull) -> collect w codes [] = [].
Proof.
  intros Hall. destruct (collect w codes []) as [|[k v] d] eqn:E; [reflexivity|].
  assert (Hk : In k (dict_keys (collect w codes []))) by (rewrite E; now left).
  apply collect_keys in Hk as [Hin Hok]. now apply Hall in Hin.
Qed.

Lemma collect_some w codes c :
  In c codes -> fetched w c <> JNull -> truthy (JObj (collect w codes [])) = true.
Proof.
  intros Hin Hok.
  assert (Hk : In c (dict_keys (collect w codes []))) by now apply collect_keys.
  now destruct (collect w codes []).
Qed.

Lemma save_to_file_eval data filename w : save_to_file data filename w =
  (tt, exec (save_to_file data filename) w).
Proof. unfold exec. now destruct (save_to_file data filename w) as [[] w']. Qed.

Lemma refresh_eval filename w :
  eval (refresh filename) w =
  if truthy (JObj (collect w FAVORITE_CURRENCIES []))
  then JObj (collect w FAVORITE_CURRENCIES []) else JNull.
Proof.
  unfold refresh, eval, bind. rewrite update_currency_rates_run.
  destruct (truthy (JObj (collect w FAVORITE_CURRENCIES []))); [|reflexivity].
  now rewrite save_to_file_eval.
Qed.

Lemma extends_refl w : extends w w [].
Proof. unfold extends. rewrite app_nil_r. repeat split. lia. Qed.

Lemma extends_log e w : extends w (log e w) [e].
Proof. unfold extends. simpl. repeat split. lia. Qed.

Lemma extends_advance w : extends w (advance w) [].
Proof.
  unfold extends, advance. destruct (later w); simpl;
    rewrite app_nil_r; repeat split; lia.
Qed.

Lemma extends_trans w1 w2 w3 io1 io2 :
  extends w1 w2 io1 -> extends w2 w3 io2 -> extends w1 w3 (io1 ++ io2).
Proof.
  intros (F1 & N1 & D1 & T1 & C1) (F2 & N2 & D2 & T2 & C2).
  unfold extends. rewrite F2, F1, N2, N1, D2, D1, T2, T1, app_assoc.
  repeat split. lia.
Qed.

Lemma cache_value_extends w w' io path :
  extends w w' io -> cache_value w' path = cache_value w path.
Proof. intros (F & _). unfold cache_value. now rewrite F. Qed.

Lemma collect_extends w w' io codes acc :
  extends w w' io -> collect w' codes acc = collect w codes acc.
Proof. intros (_ & N & _). unfold collect, fetched. now rewrite N. Qed.

Lemma refresh_eval_extends w w' io filename :
  extends w w' io -> eval (refresh filename) w' = eval (refresh filename) w.
Proof.
  intros H. now rewrite !refresh_eval, !(collect_extends _ _ _ _ _ H).
Qed.

Lemma compare_age_recent file_time now_time hours :
  in_datetime file_time = true ->
  match compare_age file_time now_time hours with
  | Ok recent => recent
  | Raise _ => false
  end = recent_at file_time now_time hours.
Proof.
  intros Hf. unfold compare_age, recent_at, datetime_of, timedelta_hours.
  rewrite Hf. simpl.
  destruct (in_datetime now_time); simpl; [|reflexivity].
  now destruct (in_timedelta (hours * HOUR)).
Qed.

(** A run of [is_file_recent]: its answer, and a world that differs by
    the stats logged and the time passed. *)
Lemma is_file_recent_run path hours w :
  exists io w',
    fetch_count io = 0%nat
    /\ extends w w' io
    /\ is_file_recent path hours w =
       (match fs w !! path with
        | None => false
        | Some f => recent_at (mtime f) (now w) hours
        end, w').
Proof.
  unfold is_file_recent, bind, emit, get_world, read_clock, ret. simpl.
  destruct (fs w !! path) as [f|].
  - unfold datetime_of at 1.
    destruct (in_datetime (mtime f)) eqn:Hf.
    + exists [EvStat path; EvStat path],
        (advance (log (EvStat path) (log (EvStat path) w))).
      split; [reflexivity|]. split.
      * apply (extends_trans w (log (EvStat path) w) _
                 [EvStat path] [EvStat path]); [apply extends_log|].
        apply (extends_trans _ (log (EvStat path) (log (EvStat path) w)) _
                 [EvStat path] []); [apply extends_log | apply extends_advance].
      * rewrite <- (compare_age_recent _ _ _ Hf).
        now destruct (compare_age _ _ _).
    + exists [EvStat path; EvStat path],
        (log (EvStat path) (log (EvStat path) w)).
      split; [reflexivity|]. split.
      * apply (extends_trans w (log (EvStat path) w) _
                 [EvStat path] [EvStat path]); apply extends_log.
      * unfold recent_at. now rewrite Hf.
  - exists [EvStat path], (log (EvStat path) w).
    split; [reflexivity|]. split; [apply extends_log | reflexivity].
Qed.

Lemma is_file_recent_eval path hours w :
  eval (is_file_recent path hours) w =
  match fs w !! path with
  | None => false
  | Some f => recent_at (mtime f) (now w) hours
  end.
Proof.
  destruct (is_file_recent_run path hours w) as (io & w' & _ & _ & Hrun).
  unfold eval. now rewrite Hrun.
Qed.

(** A run of [load_or_update_data]: some stats and reads, then either the
    cached value or the refresh. *)
Lemma load_or_update_data_run filename w :
  exists pre w1,
    fetch_count pre = 0%nat
    /\ extends w w1 pre
    /\ load_or_update_data filename w =
       if eval (is_file_recent filename 24) w && truthy (cache_value w filename)
       then (cache_value w filename, w1)
       else refresh filename w1.
Proof.
  destruct (is_file_recent_run filename 24 w) as (io & w' & Hio & Hext & Hrun).
  unfold load_or_update_data, bind. rewrite is_file_recent_eval, Hrun.
  destruct (match fs w !! filename with
            | Some f => recent_at (mtime f) (now w) 24
            | None => false
            end); simpl andb.
  - rewrite read_from_file_run, (cache_value_extends _ _ _ _ Hext).
    exists (io ++ [EvRead filename])%list, (log (EvRead filename) w').
    split; [rewrite fetch_count_app, Hio; reflexivity|].
    split; [apply (extends_trans _ _ _ _ _ Hext), extends_log|].
    now destruct (truthy (cache_value w filename)).
  - now exists io, w'.
Qed.

Lemma load_or_update_data_eval filename w :
  eval (load_or_update_data filename) w =
  if eval (is_file_recent filename 24) w && truthy (cache_value w filename)
  then cache_value w filename
  else eval (refresh filename) w.
Proof.
  destruct (load_or_update_data_run filename w) as (pre & w1 & _ & Hext & Hrun).
  unfold eval at 1. rewrite Hrun.
  destruct (eval (is_file_recent filename 24) w && truthy (cache_value w filename));
    [reflexivity|].
  apply (refresh_eval_extends _ _ _ _ Hext).
Qed.

End Refresh.

(** ** The cache: freshness, load, refresh *)

Section Cache.

(** Whenever the code serves the cache, the cache is usable. *)
Lemma served_usable w path :
  eval (is_file_recent path 24) w && truthy (cache_value w path) = true ->
  usable_cache w path = true.
Proof.
  rewrite is_file_recent_eval. unfold usable_cache, cache_value, recent_at.
  destruct (fs w !! path) as [f|]; [|discriminate].
  intros H. apply andb_true_iff in H as [H1 H2].
  apply andb_true_iff in H1 as [_ ->].
  now destruct (json_load (body f)).
Qed.

Lemma unusable_not_served w path :
  usable_cache w path = false ->
  eval (is_file_recent path 24) w && truthy (cache_value w path) = false.
Proof.
  intros Hno.
  destruct (eval (is_file_recent path 24) w && truthy (cache_value w path))
    eqn:E; [|reflexivity].
  apply served_usable in E. congruence.
Qed.

Lemma recent_at_spec file_time now_time hours :
  in_datetime file_time = true ->
  in_datetime now_time = true ->
  in_timedelta (hours * HOUR) = true ->
  (recent_at file_time now_time hours = true
   <-> now_time - file_time < hours * HOUR).
Proof.
  intros Hf Hn Hh. unfold recent_at. rewrite Hf, Hn, Hh. simpl.
  apply Z.ltb_lt.
Qed.




(** C7. When the cache file exists, is less than 24 hours old and decodes
    to a usable snapshot, both its modification time and the clock being
    datetimes, [load_or_update_data] returns that snapshot and logs no
    call of the rate provider. *)
Theorem load_or_update_data_fresh w filename f data :
  fs w !! filename = Some f ->
  in_datetime (mtime f) = true ->
  in_datetime (now w) = true ->
  now w - mtime f < 24 * HOUR ->
  json_load (body f) = Some data ->
  truthy data = true ->
  eval (load_or_update_data filename) w = data
  /\ exists io,
       trace (exec (load_or_update_data filename) w) = (trace w ++ io)%list
       /\ fetch_count io = 0%nat.
Proof.
  intros Hf Hm Hn Hage Hload Hdata.
  assert (Hcache : cache_value w filename = data)
    by (unfold cache_value; now rewrite Hf, Hload).
  assert (Hrecent : eval (is_file_recent filename 24) w = true).
  { rewrite is_file_recent_eval, Hf.
    now apply recent_at_spec. }
  destruct (load_or_update_data_run filename w)
    as (pre & w1 & Hpre & Hext & Hrun).
  unfold eval, exec. rewrite Hrun. fold (eval (is_file_recent filename 24) w).
  rewrite Hrecent, Hcache, Hdata. simpl.
  split; [reflexivity|]. exists pre. split; [apply Hext | exact Hpre].
Qed.

Lemma load_or_update_data_fresh_witness :
  eval (load_or_update_data default_filename) fresh_world = JObj snapshot_old.
Proof.
  refine (proj1 (load_or_update_data_fresh fresh_world default_filename
                   (File (Dump (JObj snapshot_old)) (24 * HOUR))
                   (JObj snapshot_old) eq_refl eq_refl eq_refl _
                   eq_refl eq_refl)).
  vm_compute. reflexivity.
Defined.

(** C8. When there is no usable cache (file missing, stale or
    unparseable): if every fetch of the watch-list fails,
    [load_or_update_data] returns [None]; if at least one succeeds, it
    returns a snapshot whose keys are exactly the currencies that fetched
    successfully, each with the data fetched for it. *)
Theorem load_or_update_data_refresh w filename :
  usable_cache w filename = false ->
  ((forall c, In c FAVORITE_CURRENCIES -> fetched w c = JNull) ->
   eval (load_or_update_data filename) w = JNull)
  /\ ((exists c, In c FAVORITE_CURRENCIES /\ fetched w c <> JNull) ->
      exists d,
        eval (load_or_update_data filename) w = JObj d
        /\ (forall c, In c (dict_keys d) <->
                      In c FAVORITE_CURRENCIES /\ fetched w c <> JNull)
        /\ (forall c, In c (dict_keys d) -> dict_get c d = Some (fetched w c))).
Proof.
  intros Hno. apply unusable_not_served in Hno.
  rewrite load_or_update_data_eval, Hno, refresh_eval. split.
  - intros Hall. now rewrite (collect_none _ _ Hall).
  - intros (c & Hin & Hok). rewrite (collect_some _ _ _ Hin Hok).
    exists (collect w FAVORITE_CURRENCIES []). split; [reflexivity|].
    split; intros c'; [apply collect_keys | apply collect_value].
Qed.

Lemma load_or_update_data_refresh_witness :
  exists d, eval (load_or_update_data default_filename) empty_world = JObj d
            /\ dict_get "USD" d = Some usd_rates_new.
Proof.
  destruct (proj2 (load_or_update_data_refresh empty_world default_filename eq_refl))
    as (d & Hd & Hkeys & Hval).
  - exists "USD". split; [now left | discriminate].
  - exists d. split; [exact Hd|].
    apply Hval, Hkeys. split; [now left | discriminate].
Defined.

End Cache.

(** ** The lookups *)

Section Lookup.

Lemma get_available_currencies_run w :
  get_available_currencies w =
  (match available_try (cache_value w default_filename) with
   | Ok currencies => currencies
   | Raise _ => []
   end,
   log (EvRead default_filename) w).
Proof.
  unfold get_available_currencies, bind. rewrite read_from_file_run.
  now destruct (available_try (cache_value w default_filename)).
Qed.

Lemma get_exchange_rate_run base target w :
  get_exchange_rate base target w =
  (match exchange_rate_try (cache_value w default_filename) base target with
   | Ok r => r
   | Raise e => (JNull, Some (LookupFailed e))
   end,
   log (EvRead default_filename) w).
Proof.
  unfold get_exchange_rate, bind. rewrite read_from_file_run.
  now destruct (exchange_rate_try (cache_value w default_filename) base target).
Qed.

Lemma convert_currency_run amount base target w :
  convert_currency amount base target w =
  (let r := eval (get_exchange_rate base target) w in
   match snd r with
   | Some error => Ok (JNull, Some error)
   | None => converted_amount <~ py_float_mul amount (fst r) ;;
             Ok (converted_amount, None)
   end,
   log (EvRead default_filename) w).
Proof.
  unfold convert_currency, bind, eval. rewrite get_exchange_rate_run. simpl.
  now destruct (snd _).
Qed.

Lemma entry_rates_getitem entry r :
  entry_rates entry = Some r -> py_getitem entry "rates" = Ok (JObj r).
Proof.
  destruct entry as [| | | | | |e]; simpl; try discriminate.
  destruct (dict_get "rates" e) as [[| | | | | |r']|]; try discriminate.
  now intros [= ->].
Qed.

Lemma exchange_rate_try_no_base d base target :
  dict_get base d = None ->
  exchange_rate_try (JObj d) base target = Ok (JNull, Some (BaseNotFound base)).
Proof.
  intros H. unfold exchange_rate_try.
  destruct (truthy (JObj d)); [|reflexivity]. simpl.
  now rewrite (dict_has_false _ _ H).
Qed.

Lemma exchange_rate_try_no_target d base target entry r :
  dict_get base d = Some entry ->
  entry_rates entry = Some r ->
  dict_get target r = None ->
  exchange_rate_try (JObj d) base target = Ok (JNull, Some (TargetNotFound target)).
Proof.
  intros Hb Hr Ht. unfold exchange_rate_try.
  rewrite (dict_get_nonempty _ _ _ Hb). simpl.
  rewrite (dict_has_true _ _ _ Hb), Hb. simpl.
  rewrite (entry_rates_getitem _ _ Hr). simpl.
  now rewrite (dict_has_false _ _ Ht).
Qed.

Lemma exchange_rate_try_hit d base target entry r rate :
  dict_get base d = Some entry ->
  entry_rates entry = Some r ->
  dict_get target r = Some rate ->
  exchange_rate_try (JObj d) base target = Ok (rate, None).
Proof.
  intros Hb Hr Ht. unfold exchange_rate_try.
  rewrite (dict_get_nonempty _ _ _ Hb). simpl.
  rewrite (dict_has_true _ _ _ Hb), Hb. simpl.
  rewrite (entry_rates_getitem _ _ Hr). simpl.
  now rewrite (dict_has_true _ _ _ Ht), Ht.
Qed.

(** What [all_rates P] says about one stored rate. *)
Lemma all_rates_entry P d base entry :
  all_rates P d = true ->
  dict_get base d = Some entry ->
  exists r, entry_rates entry = Some r
            /\ forall target rate, dict_get target r = Some rate -> P rate = true.
Proof.
  intros Hall Hb. unfold all_rates in Hall. rewrite forallb_forall in Hall.
  specialize (Hall _ (dict_get_In _ _ _ Hb)). simpl in Hall.
  destruct (entry_rates entry) as [r|]; [|discriminate].
  exists r. split; [reflexivity|]. intros target rate Ht.
  rewrite forallb_forall in Hall.
  exact (Hall _ (dict_get_In _ _ _ Ht)).
Qed.

Lemma py_float_mul_number amount rate f :
  rate_value rate = Some f ->
  py_float_mul amount rate = Ok (JFloat (amount * f)%float).
Proof.
  destruct rate; simpl; try discriminate.
  - now intros ->.
  - now intros [= ->].
Qed.

Lemma exchange_rate_try_error data base target v e :
  exchange_rate_try data base target = Ok (v, Some e) -> v = JNull.
Proof.
  unfold exchange_rate_try.
  destruct (truthy data); simpl; [|now intros [= <- _]].
  destruct (py_contains base data) as [[]|]; simpl;
    [|now intros [= <- _] | discriminate].
  destruct (py_getitem data base) as [entry|]; simpl; [|discriminate].
  destruct (py_getitem entry "rates") as [rates|]; simpl; [|discriminate].
  destruct (py_contains target rates) as [[]|]; simpl;
    [|now intros [= <- _] | discriminate].
  destruct (py_getitem rates target); simpl; discriminate.
Qed.

(** A rate returned without error is the one stored under the pair. *)
Lemma exchange_rate_try_value data base target v :
  exchange_rate_try data base target = Ok (v, None) ->
  exists d entry r,
    data = JObj d /\ dict_get base d = Some entry
    /\ entry_rates entry = Some r /\ dict_get target r = Some v.
Proof.
  unfold exchange_rate_try. destruct (truthy data); [|discriminate].
  destruct data as [| | | |s|l|d]; try discriminate.
  - simpl. destruct (str_contains base s); discriminate.
  - simpl. destruct (existsb (is_str base) l); discriminate.
  - unfold py_contains at 1, dict_has, py_getitem at 1.
    destruct (dict_get base d) as [entry|] eqn:Hb; [|discriminate].
    cbn [negb res_bind].
    destruct entry as [| | | | | |e]; try discriminate.
    unfold py_getitem at 1.
    destruct (dict_get "rates" e) as [rates|] eqn:Hr; [|discriminate].
    cbn [res_bind].
    destruct rates as [| | | |s|l|r]; try discriminate.
    + simpl. destruct (str_contains target s); discriminate.
    + simpl. destruct (existsb (is_str target) l); discriminate.
    + unfold py_contains, dict_has, py_getitem.
      destruct (dict_get target r) as [rate|] eqn:Ht; [|discriminate].
      cbn [negb res_bind]. intros [= <-].
      exists d, (JObj e), r. unfold entry_rates. now rewrite Hr.
Qed.

(** With the base among the keys the outcome is never [BaseNotFound]. *)
Lemma exchange_rate_try_base_found d base target entry :
  dict_get base d = Some entry ->
  match exchange_rate_try (JObj d) base target with
  | Ok r => r
  | Raise e => (JNull, Some (LookupFailed e))
  end <> (JNull, Some (BaseNotFound base)).
Proof.
  intros Hb. unfold exchange_rate_try.
  rewrite (dict_get_nonempty _ _ _ Hb). simpl.
  rewrite (dict_has_true _ _ _ Hb), Hb. simpl.
  destruct (py_getitem entry "rates") as [rates|]; simpl; [|discriminate].
  destruct (py_contains target rates) as [[]|]; simpl; try discriminate.
  destruct (py_getitem rates target); simpl; discriminate.
Qed.

End Lookup.

Section LookupResults.

Variable w : World.
Variable d : dict.
Hypothesis Hcache : cache_value w default_filename = JObj d.

Lemma rate_no_base base target :
  dict_get base d = None ->
  eval (get_exchange_rate base target) w = (JNull, Some (BaseNotFound base)).
Proof.
  intros H. unfold eval. rewrite get_exchange_rate_run, Hcache.
  now rewrite (exchange_rate_try_no_base _ _ _ H).
Qed.

Lemma rate_no_target base target entry r :
  dict_get base d = Some entry ->
  entry_rates entry = Some r ->
  dict_get target r = None ->
  eval (get_exchange_rate base target) w = (JNull, Some (TargetNotFound target)).
Proof.
  intros Hb Hr Ht. unfold eval. rewrite get_exchange_rate_run, Hcache.
  now rewrite (exchange_rate_try_no_target _ _ _ _ _ Hb Hr Ht).
Qed.

Lemma rate_hit base target entry r rate :
  dict_get base d = Some entry ->
  entry_rates entry = Some r ->
  dict_get target r = Some rate ->
  eval (get_exchange_rate base target) w = (rate, None).
Proof.
  intros Hb Hr Ht. unfold eval. rewrite get_exchange_rate_run, Hcache.
  now rewrite (exchange_rate_try_hit _ _ _ _ _ _ Hb Hr Ht).
Qed.

Lemma convert_of_rate amount base target :
  eval (convert_currency amount base target) w =
  match snd (eval (get_exchange_rate base target) w) with
  | Some error => Ok (JNull, Some error)
  | None =>
      converted_amount <~
        py_float_mul amount (fst (eval (get_exchange_rate base target) w)) ;;
      Ok (converted_amount, None)
  end.
Proof. unfold eval at 1. now rewrite convert_currency_run. Qed.

End LookupResults.

(** Concrete runs. Outside the data model the lookups behave differently:
    an entry without a rate table gives the generic error, a [null] rate
    gives a pair with neither value nor error, and a rate that is not a
    number makes the conversion raise. *)
Section Scenarios.

Example rate_without_table :
  eval (get_exchange_rate "USD" "EUR")
       (cache_of (JObj [("USD", JObj [("result", JStr "success")])]))
  = (JNull, Some (LookupFailed (KeyError "rates"))).
Proof. reflexivity. Qed.

Example rate_null :
  eval (get_exchange_rate "USD" "EUR")
       (cache_of (JObj [("USD", JObj [("rates", JObj [("EUR", JNull)])])]))
  = (JNull, None).
Proof. reflexivity. Qed.

Example convert_null_rate :
  eval (convert_currency 100 "USD" "EUR")
       (cache_of (JObj [("USD", JObj [("rates", JObj [("EUR", JNull)])])]))
  = Raise TypeError.
Proof. reflexivity. Qed.

Example convert_huge_rate :
  eval (convert_currency 100 "USD" "EUR")
       (cache_of (JObj [("USD", JObj [("rates", JObj [("EUR", JInt (2 ^ 1024))])])]))
  = Raise OverflowError.
Proof. vm_compute. reflexivity. Qed.

Example convert_integer_rate :
  eval (convert_currency 100 "USD" "USD")
       (cache_of (JObj [("USD", JObj [("rates", JObj [("USD", JInt 1)])])]))
  = Ok (JFloat 100, None).
Proof. reflexivity. Qed.

Example top_level_list :
  eval (get_exchange_rate "USD" "EUR") (cache_of (JArr [JStr "USD"]))
  = (JNull, Some (LookupFailed TypeError)).
Proof. reflexivity. Qed.

Example scenario_convert :
  eval (convert_currency 100 "USD" "EUR") scenario_world = Ok (JFloat 90, None).
Proof. reflexivity. Qed.

Example scenario_missing_target :
  eval (get_exchange_rate "USD" "GBP") scenario_world
  = (JNull, Some (TargetNotFound "GBP")).
Proof. reflexivity. Qed.

Example garbled_cache_lists_nothing :
  eval get_available_currencies garbled_world = [].
Proof. reflexivity. Qed.

End Scenarios.

Section LookupClaims.

(** C6, as stated, fails. A provider reply that reports success without
    a rate table is stored by the refresh as it is; the lookup of that
    base then gives the generic error: the base is a key, and the outcome
    is neither [TargetNotFound] nor a rate. *)
Lemma get_exchange_rate_fourth_outcome :
  cache_value (exec (load_or_update_data default_filename) bare_reply_world)
              default_filename
  = JObj [("USD", JObj [("result", JStr "success")])]
  /\ eval (load_or_update_data default_filename ;;
           get_exchange_rate "USD" "EUR") bare_reply_world
     = (JNull, Some (LookupFailed (KeyError "rates")))
  /\ eval (load_or_update_data default_filename ;;
           get_exchange_rate "USD" "EUR") bare_reply_world
     <> (JNull, Some (TargetNotFound "EUR"))
  /\ forall rate,
       eval (load_or_update_data default_filename ;;
             get_exchange_rate "USD" "EUR") bare_reply_world
       <> (rate, None).
Proof.
  split; [reflexivity|]. split; [reflexivity|].
  split; [discriminate|]. intros rate. discriminate.
Qed.

(** C6, as the code has it. On a snapshot, the rate lookup fails with
    [BaseNotFound] exactly when the base is not a key of the snapshot.
    When the base is a key and its entry has a rate table, it fails with
    [TargetNotFound] exactly when the target is not a key of that table
    and otherwise returns the stored rate with no error. When the base is
    a key and taking the ["rates"] item of its entry raises (no such
    item, or an entry that is not a dict), it fails with the generic
    error that carries the exception. *)
Theorem get_exchange_rate_cases w d base target :
  cache_value w default_filename = JObj d ->
  (eval (get_exchange_rate base target) w = (JNull, Some (BaseNotFound base))
     <-> ~ In base (dict_keys d))
  /\ (forall entry r,
        dict_get base d = Some entry ->
        entry_rates entry = Some r ->
        (eval (get_exchange_rate base target) w
         = (JNull, Some (TargetNotFound target))
         <-> ~ In target (dict_keys r))
        /\ (forall rate,
              dict_get target r = Some rate ->
              eval (get_exchange_rate base target) w = (rate, None)))
  /\ (forall entry e,
        dict_get base d = Some entry ->
        py_getitem entry "rates" = Raise e ->
        eval (get_exchange_rate base target) w
        = (JNull, Some (LookupFailed e))).
Proof.
  intros Hcache. split; [|split].
  - destruct (dict_get base d) as [entry|] eqn:Hb.
    + split.
      * intros H. exfalso. revert H. unfold eval.
        rewrite get_exchange_rate_run, Hcache. simpl fst.
        now apply exchange_rate_try_base_found with entry.
      * intros H. contradiction H. apply dict_get_keys. congruence.
    + rewrite (rate_no_base _ _ Hcache _ _ Hb).
      split; [now rewrite <- dict_get_None | reflexivity].
  - intros entry r Hb Hr.
    destruct (dict_get target r) as [rate|] eqn:Ht.
    + rewrite (rate_hit _ _ Hcache _ _ _ _ _ Hb Hr Ht). split.
      * split; [discriminate|]. intros H. contradiction H.
        apply dict_get_keys. congruence.
      * now intros rate' [= <-].
    + rewrite (rate_no_target _ _ Hcache _ _ _ _ Hb Hr Ht). split.
      * split; [now rewrite <- dict_get_None | reflexivity].
      * discriminate.
  - intros entry e Hb Hr. unfold eval.
    rewrite get_exchange_rate_run, Hcache. simpl fst.
    unfold exchange_rate_try.
    rewrite (dict_get_nonempty _ _ _ Hb). simpl.
    rewrite (dict_has_true _ _ _ Hb), Hb. simpl. now rewrite Hr.
Qed.

Lemma get_exchange_rate_cases_witness :
  eval (get_exchange_rate "USD" "GBP") fresh_world
  = (JNull, Some (TargetNotFound "GBP")).
Proof.
  apply (proj1 (proj2 (get_exchange_rate_cases fresh_world snapshot_old
                         "USD" "GBP" eq_refl))
               usd_rates_old
               [("USD", JInt 1); ("EUR", JFloat 0.5); ("RUB", JFloat 95)]
               eq_refl eq_refl).
  simpl. intros [H|[H|[H|[]]]]; discriminate.
Defined.

(** C5. On a valid snapshot (every rate a positive finite number), for a
    base that is a key of the snapshot and a target that is a key of its
    rate table, the rate lookup returns the stored rate, which is
    strictly positive, with no error, and the conversion of any amount
    returns [amount * rate] with no error. *)
Theorem convert_currency_valid w d amount base target entry r rate :
  cache_value w default_filename = JObj d ->
  valid_snapshot d = true ->
  dict_get base d = Some entry ->
  entry_rates entry = Some r ->
  dict_get target r = Some rate ->
  exists f,
    rate_value rate = Some f
    /\ PrimFloat.ltb 0 f = true
    /\ eval (get_exchange_rate base target) w = (rate, None)
    /\ eval (convert_currency amount base target) w
       = Ok (JFloat (amount * f)%float, None).
Proof.
  intros Hcache Hvalid Hb Hr Ht.
  destruct (all_rates_entry _ _ _ _ Hvalid Hb) as (r' & Hr' & Hrates).
  rewrite Hr in Hr'. injection Hr' as <-.
  specialize (Hrates _ _ Ht). unfold is_valid_rate in Hrates.
  destruct (rate_value rate) as [f|] eqn:Hf; [|discriminate].
  apply andb_true_iff in Hrates as [Hpos _].
  exists f. split; [reflexivity|]. split; [exact Hpos|].
  pose proof (rate_hit _ _ Hcache _ _ _ _ _ Hb Hr Ht) as Hrate.
  split; [exact Hrate|].
  rewrite convert_of_rate, Hrate. simpl.
  now rewrite (py_float_mul_number _ _ _ Hf).
Qed.

Lemma convert_currency_valid_witness :
  eval (convert_currency 100 "USD" "EUR") (exec (refresh default_filename) empty_world)
  = Ok (JFloat 90, None).
Proof.
  destruct (convert_currency_valid
              (exec (refresh default_filename) empty_world) snapshot_new
              100 "USD" "EUR" usd_rates_new
              [("USD", JInt 1); ("EUR", JFloat 0.9); ("RUB", JFloat 95)]
              (JFloat 0.9) eq_refl eq_refl eq_refl eq_refl eq_refl)
    as (f & Hf & _ & _ & Hconv).
  injection Hf as <-. exact Hconv.
Defined.

(** C9, as stated, fails. A provider reply whose rate table holds [null]
    is stored by the refresh as it is; the lookup of that pair returns
    neither a value nor an error, and the conversion raises instead of
    returning a pair. *)
Lemma lookup_outcome_both_absent :
  stored_rate (exec (load_or_update_data default_filename) null_rate_world)
              "USD" "EUR"
  = Some JNull
  /\ eval (load_or_update_data default_filename ;;
           get_exchange_rate "USD" "EUR") null_rate_world
     = (JNull, None)
  /\ ~ exactly_one
         (eval (load_or_update_data default_filename ;;
                get_exchange_rate "USD" "EUR") null_rate_world)
  /\ eval (load_or_update_data default_filename ;;
           convert_currency 100 "USD" "EUR") null_rate_world
     = Raise TypeError.
Proof.
  split; [reflexivity|]. split; [reflexivity|]. split; [|reflexivity].
  intros [[H _]|[_ H]]; now apply H.
Qed.

(** C9, as the code has it. The rate lookup returns a pair with exactly
    one meaningful component, a value and no error or an error and no
    value, except for a stored rate of [null], which it returns as a pair
    with neither. Whenever the conversion returns a pair, exactly one
    component of it is meaningful; it returns one whenever the lookup
    reports an error or finds a number. *)
Theorem lookup_outcome_exactly_one w amount base target :
  (exactly_one (eval (get_exchange_rate base target) w)
   \/ (eval (get_exchange_rate base target) w = (JNull, None)
       /\ stored_rate w base target = Some JNull))
  /\ (forall r, eval (convert_currency amount base target) w = Ok r ->
                exactly_one r)
  /\ (snd (eval (get_exchange_rate base target) w) <> None
      \/ is_number (fst (eval (get_exchange_rate base target) w)) = true ->
      exists r, eval (convert_currency amount base target) w = Ok r).
Proof.
  split; [|split].
  - unfold eval, stored_rate. rewrite get_exchange_rate_run. simpl fst.
    destruct (exchange_rate_try (cache_value w default_filename) base target)
      as [[v [e|]]|e] eqn:E.
    + left. right. apply exchange_rate_try_error in E. now subst.
    + apply exchange_rate_try_value in E
        as (d & entry & r & -> & Hb & Hr & Ht).
      rewrite Hb, Hr. destruct v; try (left; left; now split).
      right. now split.
    + left. right. now split.
  - intros r. rewrite convert_of_rate.
    destruct (eval (get_exchange_rate base target) w) as [v [e|]]; simpl.
    + intros [= <-]. right. now split.
    + destruct v as [|b|z|f|s|l|d]; simpl; try discriminate;
        try (intros [= <-]; left; now split).
      destruct (float_of_int z); simpl; [|discriminate].
      intros [= <-]. left. now split.
  - rewrite convert_of_rate.
    destruct (eval (get_exchange_rate base target) w) as [v [e|]]; simpl.
    + intros _. now eexists.
    + intros [H|H]; [congruence|]. unfold is_number in H.
      destruct (rate_value v) as [f|] eqn:Hf; [|discriminate].
      rewrite (py_float_mul_number _ _ _ Hf). now eexists.
Qed.

Lemma lookup_outcome_exactly_one_witness :
  exists r, eval (convert_currency 1 "USD" "RUB") fresh_world = Ok r.
Proof.
  apply (proj2 (proj2 (lookup_outcome_exactly_one fresh_world
                         1 "USD" "RUB"))).
  right. reflexivity.
Defined.

End LookupClaims.

Section Availability.

Lemma available_try_first base entry rest :
  available_try (JObj ((base, entry) :: rest)) =
  (rates <~ py_getitem entry "rates" ;; py_keys rates).
Proof.
  unfold available_try. simpl. now rewrite String.eqb_refl.
Qed.

Lemma available_try_no_rates base entry rest :
  entry_rates entry = None ->
  match available_try (JObj ((base, entry) :: rest)) with
  | Ok currencies => currencies
  | Raise _ => []
  end = [].
Proof.
  rewrite available_try_first.
  destruct entry as [| | | | | |e]; try reflexivity. simpl.
  destruct (dict_get "rates" e) as [[| | | | | |r]|]; try reflexivity.
  discriminate.
Qed.

(** C10. [get_available_currencies] always returns a list: the empty one
    when the cache file is missing, is unparseable, holds an empty
    snapshot, or holds a first base entry without a rate table; the keys
    of the first base entry's rate table otherwise. *)
Theorem get_available_currencies_total w :
  (exists currencies,
     get_available_currencies w = (currencies, log (EvRead default_filename) w))
  /\ (fs w !! default_filename = None -> eval get_available_currencies w = [])
  /\ (forall f, fs w !! default_filename = Some f ->
                json_load (body f) = None ->
                eval get_available_currencies w = [])
  /\ (cache_value w default_filename = JObj [] ->
      eval get_available_currencies w = [])
  /\ (forall base entry rest,
        cache_value w default_filename = JObj ((base, entry) :: rest) ->
        entry_rates entry = None ->
        eval get_available_currencies w = [])
  /\ (forall base entry rest r,
        cache_value w default_filename = JObj ((base, entry) :: rest) ->
        entry_rates entry = Some r ->
        eval get_available_currencies w = dict_keys r).
Proof.
  unfold eval. rewrite get_available_currencies_run. simpl fst.
  split; [eexists; reflexivity|].
  split; [|split; [|split; [|split]]].
  - intros Hf. unfold cache_value. now rewrite Hf.
  - intros f Hf Hload. unfold cache_value. now rewrite Hf, Hload.
  - now intros ->.
  - intros base entry rest -> Hr. now apply available_try_no_rates.
  - intros base entry rest r -> Hr.
    now rewrite available_try_first, (entry_rates_getitem _ _ Hr).
Qed.

Lemma get_available_currencies_total_witness :
  eval get_available_currencies fresh_world = ["USD"; "EUR"; "RUB"].
Proof.
  exact (proj2 (proj2 (proj2 (proj2 (proj2
           (get_available_currencies_total fresh_world)))))
           "USD" usd_rates_old []
           [("USD", JInt 1); ("EUR", JFloat 0.5); ("RUB", JFloat 95)]
           eq_refl eq_refl).
Defined.

End Availability.

(** ** Lookups and the cache file *)

Section LookupsReadTheFile.

Lemma cache_value_ext w1 w2 path :
  body <$> fs w1 !! path = body <$> fs w2 !! path ->
  cache_value w1 path = cache_value w2 path.
Proof.
  unfold cache_value.
  destruct (fs w1 !! path) as [f1|], (fs w2 !! path) as [f2|]; simpl;
    try discriminate; [|reflexivity].
  now intros [= ->].
Qed.

(** C3, as the code has it. The lookups take no snapshot: each reads the
    cache file [currency.json] when called. Two calls made while that
    file holds the same content return the same result, and a call
    performs exactly one read of that file, no fetch and no write. *)
Theorem lookups_read_cache_file w1 w2 amount base target :
  body <$> fs w1 !! default_filename = body <$> fs w2 !! default_filename ->
  eval get_available_currencies w1 = eval get_available_currencies w2
  /\ eval (get_exchange_rate base target) w1
     = eval (get_exchange_rate base target) w2
  /\ eval (convert_currency amount base target) w1
     = eval (convert_currency amount base target) w2
  /\ exec get_available_currencies w1 = log (EvRead default_filename) w1
  /\ exec (get_exchange_rate base target) w1 = log (EvRead default_filename) w1
  /\ exec (convert_currency amount base target) w1
     = log (EvRead default_filename) w1.
Proof.
  intros Hfile. apply cache_value_ext in Hfile.
  rewrite !convert_of_rate. unfold eval, exec.
  rewrite !get_available_currencies_run, !get_exchange_rate_run,
    convert_currency_run, Hfile.
  repeat split.
Qed.

Lemma lookups_read_cache_file_witness :
  eval (get_exchange_rate "USD" "EUR") stale_world
  = eval (get_exchange_rate "USD" "EUR") fresh_world.
Proof.
  exact (proj1 (proj2 (lookups_read_cache_file stale_world fresh_world
                         1 "USD" "EUR" eq_refl))).
Defined.

End LookupsReadTheFile.

(** C3, as stated, fails. Two runs hold the same in-memory snapshot after
    [load_or_update_data], yet the listing differs between them, because
    the lookup reads the file, which only one of the runs could write;
    and the lookup itself logs a file read. *)
Lemma lookups_ignore_snapshot :
  eval (load_or_update_data default_filename) empty_world
  = eval (load_or_update_data default_filename) readonly_world
  /\ eval (load_or_update_data default_filename ;; get_available_currencies)
          empty_world
     <> eval (load_or_update_data default_filename ;; get_available_currencies)
             readonly_world
  /\ trace (exec get_available_currencies empty_world) = [EvRead default_filename].
Proof.
  split; [reflexivity|]. split; [|reflexivity].
  vm_compute. discriminate.
Qed.

(** ** Writing the cache file *)

Section Persist.

(** C2, as stated, fails. A write that breaks after 10 characters leaves
    the cache file holding the cut document: the snapshot stored before
    is gone and the file no longer decodes. *)
Lemma save_to_file_not_atomic :
  fs failing_disk_world !! default_filename
  = Some (File (Dump (JObj snapshot_old)) 0)
  /\ fs (exec (save_to_file snapshot_new default_filename)
            failing_disk_world) !! default_filename
     = Some (File (PartialDump snapshot_new 10) (25 * HOUR))
  /\ cache_value (exec (save_to_file snapshot_new default_filename)
                    failing_disk_world) default_filename
     = JNull.
Proof. repeat split. Qed.

(** C2, as the code has it. [save_to_file] opens the target file itself
    for writing and streams the document into it; there is no temporary
    file and no rename. No other path changes and the call never raises.
    A write that completes leaves the full document; an [open] that fails
    leaves the file as it was; a write that fails part-way leaves the cut
    document in place of the previous content. *)
Theorem save_to_file_in_place data filename w :
  delete filename (fs (exec (save_to_file data filename) w))
  = delete filename (fs w)
  /\ trace (exec (save_to_file data filename) w)
     = (trace w ++ [EvWrite filename])%list
  /\ fs (exec (save_to_file data filename) w) !! filename
     = match fault w with
       | NoFault => Some (File (Dump (JObj data)) (now w))
       | OpenFails => fs w !! filename
       | WriteFailsAfter n => Some (File (PartialDump data n) (now w))
       end.
Proof.
  unfold exec, save_to_file, bind, emit, get_world, read_clock, put_file, ret,
    advance, log.
  simpl. destruct (fault w); simpl; try destruct (later w); simpl;
    rewrite ?delete_insert_eq, ?lookup_insert_eq; repeat split.
Qed.

End Persist.

(** ** The "update now" menu action *)

Section ForceRefresh.

Lemma main_choice_4_run w :
  main_choice_4 w = (tt, log_all (map EvFetch FAVORITE_CURRENCIES) w).
Proof. unfold main_choice_4, bind. now rewrite update_currency_rates_run. Qed.

(** In every world the action fetches and leaves the file system as it
    was. *)
Lemma main_choice_4_keeps_files w : fs (exec main_choice_4 w) = fs w.
Proof. unfold exec. now rewrite main_choice_4_run. Qed.

(** C1 at a failing input: the cache holds EUR at 0.5, the provider now
    answers USD with EUR at 0.9. The fetch succeeds, but after the menu
    action the files are unchanged and the lookup still answers 0.5,
    while the refresh step of [load_or_update_data] stores 0.9. *)
Lemma main_choice_4_drops_snapshot :
  eval update_currency_rates stale_world = JObj snapshot_new
  /\ fs (exec main_choice_4 stale_world) = fs stale_world
  /\ eval (main_choice_4 ;; get_exchange_rate "USD" "EUR") stale_world
     = (JFloat 0.5, None)
  /\ eval (refresh default_filename ;; get_exchange_rate "USD" "EUR") stale_world
     = (JFloat 0.9, None).
Proof. repeat split. Qed.

End ForceRefresh.

(** * Further properties of the code *)

(** ** Whole runs of the storage functions *)

Section StorageRuns.

(** A run of [save_to_file]: the file it leaves, and nothing else but
    the log and the clock changed. *)
Lemma save_to_file_spec data path w :
  fs (exec (save_to_file data path) w)
  = match written data w with
    | Some f => <[path := f]> (fs w)
    | None => fs w
    end
  /\ net (exec (save_to_file data path) w) = net w
  /\ fault (exec (save_to_file data path) w) = fault w
  /\ trace (exec (save_to_file data path) w) = (trace w ++ [EvWrite path])%list
  /\ now w <= now (exec (save_to_file data path) w).
Proof.
  unfold exec, save_to_file, written, bind, emit, get_world, read_clock,
    put_file, ret, advance, log.
  simpl. destruct (fault w) eqn:Hfault; simpl; try destruct (later w); simpl;
    rewrite ?Hfault; repeat split; lia.
Qed.

Lemma refresh_spec filename w :
  fs (exec (refresh filename) w)
  = (if truthy (JObj (collect w FAVORITE_CURRENCIES []))
     then match written (collect w FAVORITE_CURRENCIES []) w with
          | Some f => <[filename := f]> (fs w)
          | None => fs w
          end
     else fs w)
  /\ fault (exec (refresh filename) w) = fault w
  /\ now w <= now (exec (refresh filename) w).
Proof.
  unfold exec at 1 2 3, refresh, bind. rewrite update_currency_rates_run.
  cbn [fst snd].
  destruct (truthy (JObj (collect w FAVORITE_CURRENCIES []))).
  - rewrite save_to_file_eval. cbn [fst snd ret].
    destruct (save_to_file_spec (collect w FAVORITE_CURRENCIES []) filename
                (log_all (map EvFetch FAVORITE_CURRENCIES) w))
      as (F & _ & D & _ & C).
    now rewrite F, D.
  - cbn [fst snd ret log_all fs fault now]. repeat split. lia.
Qed.

(** The files, disk and clock after [load_or_update_data]: nothing
    changes when the cache is served; otherwise the refresh runs in a
    world [w1] that differs by the time passed. *)
Lemma load_or_update_data_spec filename w :
  exists w1 pre,
    extends w w1 pre
    /\ fs (exec (load_or_update_data filename) w)
       = (if eval (is_file_recent filename 24) w
             && truthy (cache_value w filename)
          then fs w
          else if truthy (JObj (collect w FAVORITE_CURRENCIES []))
               then match written (collect w FAVORITE_CURRENCIES []) w1 with
                    | Some f => <[filename := f]> (fs w)
                    | None => fs w
                    end
               else fs w)
    /\ fault (exec (load_or_update_data filename) w) = fault w
    /\ now w <= now (exec (load_or_update_data filename) w).
Proof.
  destruct (load_or_update_data_run filename w)
    as (pre & w1 & _ & Hext & Hrun).
  exists w1, pre. split; [exact Hext|].
  unfold exec. rewrite Hrun.
  destruct Hext as (F & N & D & T & C).
  destruct (eval (is_file_recent filename 24) w && truthy (cache_value w filename)).
  - simpl. repeat split; [exact F | exact D | exact C].
  - destruct (refresh_spec filename w1) as (F1 & D1 & C1).
    unfold exec in F1, D1, C1. rewrite F1, D1, D, F.
    assert (Hc : collect w1 FAVORITE_CURRENCIES []
                 = collect w FAVORITE_CURRENCIES [])
      by (unfold collect, fetched; now rewrite N).
    rewrite Hc. repeat split. lia.
Qed.

Lemma written_fault data w w' :
  fault w' = fault w ->
  written data w' =
  match fault w with
  | NoFault => Some (File (Dump (JObj data)) (now w'))
  | OpenFails => None
  | WriteFailsAfter n => Some (File (PartialDump data n) (now w'))
  end.
Proof. unfold written. now intros ->. Qed.

Lemma load_or_update_data_truthy filename w :
  eval (load_or_update_data filename) w <> JNull ->
  truthy (eval (load_or_update_data filename) w) = true.
Proof.
  rewrite load_or_update_data_eval, refresh_eval.
  destruct (eval (is_file_recent filename 24) w && truthy (cache_value w filename))
    eqn:E.
  - intros _. now apply andb_true_iff in E.
  - destruct (truthy (JObj (collect w FAVORITE_CURRENCIES []))) eqn:Ht;
      congruence.
Qed.

End StorageRuns.

Section StorageProperties.

Lemma cache_value_fs w1 w2 path :
  fs w1 = fs w2 -> cache_value w1 path = cache_value w2 path.
Proof. unfold cache_value. now intros ->. Qed.

(** After a call that returned data and whose write, if any, completed,
    the cache at [filename] holds that data. *)
Lemma cache_after_load filename w :
  fault w = NoFault ->
  eval (load_or_update_data filename) w <> JNull ->
  cache_value (exec (load_or_update_data filename) w) filename
  = eval (load_or_update_data filename) w.
Proof.
  intros Hfault Hdata.
  destruct (load_or_update_data_spec filename w)
    as (w1 & pre & Hext & Hfs & _ & _).
  rewrite load_or_update_data_eval, refresh_eval in *.
  unfold cache_value at 1. rewrite Hfs.
  destruct (eval (is_file_recent filename 24) w && truthy (cache_value w filename)).
  - reflexivity.
  - destruct (truthy (JObj (collect w FAVORITE_CURRENCIES []))); [|congruence].
    rewrite (written_fault _ w w1) by apply Hext.
    now rewrite Hfault, lookup_insert_eq.
Qed.


(** X1. Writing a dict and reading the same path back gives the dict
    when the write completes, the previous cache value when the file
    could not be opened, and nothing when the write broke part-way. *)
Theorem save_then_read data path w :
  eval (save_to_file data path ;; read_from_file path) w =
  match fault w with
  | NoFault => JObj data
  | OpenFails => cache_value w path
  | WriteFailsAfter _ => JNull
  end.
Proof.
  unfold eval, bind. rewrite save_to_file_eval, read_from_file_run. simpl fst.
  destruct (save_to_file_spec data path w) as (F & _).
  unfold cache_value at 1. rewrite F. unfold written, cache_value.
  destruct (fault w); rewrite ?lookup_insert_eq; reflexivity.
Qed.

(** X2. A file whose write has just completed is recent for every window
    longer than the time passed since the write, the two readings of the
    clock being datetimes and the window a timedelta. *)
Theorem save_then_recent data path hours w :
  fault w = NoFault ->
  in_datetime (now w) = true ->
  in_datetime (now (exec (save_to_file data path) w)) = true ->
  in_timedelta (hours * HOUR) = true ->
  now (exec (save_to_file data path) w) - now w < hours * HOUR ->
  eval (save_to_file data path ;; is_file_recent path hours) w = true.
Proof.
  intros Hfault Hn Hn' Hh Hage. unfold eval, bind.
  rewrite save_to_file_eval.
  fold (eval (is_file_recent path hours) (exec (save_to_file data path) w)).
  rewrite is_file_recent_eval.
  destruct (save_to_file_spec data path w) as (F & _).
  rewrite F. unfold written. rewrite Hfault, lookup_insert_eq.
  now apply recent_at_spec.
Qed.

Lemma save_then_recent_witness :
  eval (save_to_file snapshot_new default_filename ;;
        is_file_recent default_filename 24) stale_world = true.
Proof.
  apply save_then_recent; reflexivity.
Defined.

(** X3. Edge cases of the freshness test: a missing file is never recent;
    with a window of zero or fewer hours a file modified now or earlier is
    never recent; a file stamped in the future is recent for every
    non-negative window, as long as both times are datetimes and the
    window is a timedelta. *)
Theorem is_file_recent_edges w path hours :
  (fs w !! path = None -> eval (is_file_recent path hours) w = false)
  /\ (forall f, fs w !! path = Some f -> mtime f <= now w -> hours <= 0 ->
                eval (is_file_recent path hours) w = false)
  /\ (forall f, fs w !! path = Some f ->
                in_datetime (mtime f) = true -> in_datetime (now w) = true ->
                in_timedelta (hours * HOUR) = true ->
                now w < mtime f -> 0 <= hours ->
                eval (is_file_recent path hours) w = true).
Proof.
  rewrite is_file_recent_eval.
  split; [now intros ->|].
  split.
  - intros f -> H1 H2. unfold recent_at.
    replace (now w - mtime f <? hours * HOUR) with false
      by (symmetry; apply Z.ltb_ge; unfold HOUR; lia).
    apply andb_false_r.
  - intros f -> Hm Hn Hh H1 H2. apply recent_at_spec; try assumption.
    unfold HOUR. lia.
Qed.

Lemma is_file_recent_edges_witness :
  eval (is_file_recent default_filename 24) empty_world = false.
Proof.
  exact (proj1 (is_file_recent_edges empty_world default_filename 24) eq_refl).
Defined.

(** X4. A file that is recent for some window is recent for every larger
    window that is still a timedelta. *)
Theorem is_file_recent_monotone w path hours hours' :
  eval (is_file_recent path hours) w = true ->
  hours <= hours' ->
  in_timedelta (hours' * HOUR) = true ->
  eval (is_file_recent path hours') w = true.
Proof.
  rewrite !is_file_recent_eval.
  destruct (fs w !! path) as [f|]; [|discriminate].
  unfold recent_at. intros H Hle Hh'. rewrite Hh'.
  apply andb_true_iff in H as [H Hage].
  apply andb_true_iff in H as [H _]. rewrite H. simpl.
  apply Z.ltb_lt. apply Z.ltb_lt in Hage. unfold HOUR in *. lia.
Qed.

(** The largest window: [timedelta(hours=24000000000)] overflows, and the
    file that was recent for one hour less is not recent. *)
Example window_overflow :
  eval (is_file_recent default_filename 23999999999) fresh_world = true
  /\ eval (is_file_recent default_filename 24000000000) fresh_world = false.
Proof. split; reflexivity. Qed.

Lemma is_file_recent_monotone_witness :
  eval (is_file_recent default_filename 48) fresh_world = true.
Proof.
  apply (is_file_recent_monotone fresh_world default_filename 24 48);
    [reflexivity | lia | reflexivity].
Defined.

(** X5. [load_or_update_data] changes no file other than the one it is
    given. *)
Theorem load_or_update_data_frame filename w :
  delete filename (fs (exec (load_or_update_data filename) w))
  = delete filename (fs w).
Proof.
  destruct (load_or_update_data_spec filename w) as (w1 & pre & _ & Hfs & _).
  rewrite Hfs.
  destruct (eval (is_file_recent filename 24) w && truthy (cache_value w filename));
    [reflexivity|].
  destruct (truthy _); [|reflexivity].
  destruct (written _ _); [apply delete_insert_eq | reflexivity].
Qed.

(** X6. When every fetch fails, [load_or_update_data] leaves all files as
    they were, so a stale cache keeps answering the lookups. *)
Theorem failed_refresh_keeps_cache filename w base target :
  (forall c, In c FAVORITE_CURRENCIES -> fetched w c = JNull) ->
  fs (exec (load_or_update_data filename) w) = fs w
  /\ eval (load_or_update_data filename ;; get_exchange_rate base target) w
     = eval (get_exchange_rate base target) w.
Proof.
  intros Hall.
  assert (Hfs : fs (exec (load_or_update_data filename) w) = fs w).
  { destruct (load_or_update_data_spec filename w) as (w1 & pre & _ & Hfs & _).
    rewrite Hfs, (collect_none _ _ Hall).
    now destruct (eval (is_file_recent filename 24) w
                  && truthy (cache_value w filename)). }
  split; [exact Hfs|].
  unfold eval at 1, bind.
  destruct (load_or_update_data filename w) as [data w'] eqn:Hrun.
  assert (Hw' : w' = exec (load_or_update_data filename) w)
    by (unfold exec; now rewrite Hrun).
  unfold eval. rewrite !get_exchange_rate_run. simpl fst.
  subst w'. now rewrite (cache_value_fs _ w _ Hfs).
Qed.

Lemma failed_refresh_keeps_cache_witness :
  eval (load_or_update_data default_filename ;; get_exchange_rate "USD" "EUR")
       offline_world
  = (JFloat 0.5, None).
Proof.
  refine (eq_trans
            (proj2 (failed_refresh_keeps_cache default_filename offline_world
                      "USD" "EUR" _))
            eq_refl).
  reflexivity.
Defined.

(** X7. Whenever [load_or_update_data] returns data and the write of the
    cache file, if there was one, completed, the cache file holds exactly
    that data. *)
Theorem load_or_update_data_persists filename w :
  fault w = NoFault ->
  eval (load_or_update_data filename) w <> JNull ->
  cache_value (exec (load_or_update_data filename) w) filename
  = eval (load_or_update_data filename) w.
Proof. intros Hfault Hdata. now apply cache_after_load. Qed.

Lemma load_or_update_data_persists_witness :
  cache_value (exec (load_or_update_data default_filename) stale_world)
              default_filename
  = JObj snapshot_new.
Proof.
  refine (eq_trans
            (load_or_update_data_persists default_filename stale_world
               eq_refl _) eq_refl).
  discriminate.
Defined.

(** X8. After a call that returned data and whose write, if any,
    completed, a second call made while [is_file_recent] still accepts the
    file returns the same data and fetches nothing. *)
Theorem load_or_update_data_twice filename w :
  fault w = NoFault ->
  eval (load_or_update_data filename) w <> JNull ->
  eval (is_file_recent filename 24) (exec (load_or_update_data filename) w)
  = true ->
  eval (load_or_update_data filename) (exec (load_or_update_data filename) w)
  = eval (load_or_update_data filename) w
  /\ exists io,
       trace (exec (load_or_update_data filename)
                (exec (load_or_update_data filename) w))
       = (trace (exec (load_or_update_data filename) w) ++ io)%list
       /\ fetch_count io = 0%nat.
Proof.
  intros Hfault Hdata Hrecent.
  pose proof (cache_after_load filename w Hfault Hdata) as Hc.
  pose proof (load_or_update_data_truthy filename w Hdata) as Ht.
  set (w' := exec (load_or_update_data filename) w) in *.
  destruct (load_or_update_data_run filename w')
    as (pre & w1 & Hpre & Hext & Hrun).
  unfold eval at 1, exec at 1. rewrite Hrun, Hrecent, Hc, Ht. simpl.
  split; [reflexivity|]. exists pre. split; [apply Hext | exact Hpre].
Qed.

Lemma load_or_update_data_twice_witness :
  eval (load_or_update_data default_filename)
       (exec (load_or_update_data default_filename) stale_world)
  = JObj snapshot_new.
Proof.
  refine (eq_trans
            (proj1 (load_or_update_data_twice default_filename stale_world
                      eq_refl _ eq_refl)) eq_refl).
  discriminate.
Defined.

(** Without that condition the second call fetches again: the cache of
    [aging_world] is one second short of 24 hours old at the first call
    and 24 hours old at the second. *)
Example second_call_after_expiry :
  eval (load_or_update_data default_filename) aging_world = JObj snapshot_old
  /\ eval (load_or_update_data default_filename)
          (exec (load_or_update_data default_filename) aging_world)
     = JObj snapshot_new
  /\ fetch_count (trace (exec (load_or_update_data default_filename)
                           (exec (load_or_update_data default_filename)
                                 aging_world)))
     = 4%nat.
Proof. repeat split. Qed.

(** X9. What [load_or_update_data] returns does not depend on whether the
    save succeeds. *)
Theorem load_or_update_data_any_disk filename ft w :
  eval (load_or_update_data filename) (with_fault ft w)
  = eval (load_or_update_data filename) w.
Proof.
  rewrite !load_or_update_data_eval, !refresh_eval, !is_file_recent_eval.
  reflexivity.
Qed.



(** X11. A refresh replaces the whole cache: after it, a base whose fetch
    did not succeed is not found, whatever the old cache held. *)
Theorem refresh_drops_failed_bases w base target :
  fault w = NoFault ->
  usable_cache w default_filename = false ->
  eval (load_or_update_data default_filename) w <> JNull ->
  ~ (In base FAVORITE_CURRENCIES /\ fetched w base <> JNull) ->
  eval (load_or_update_data default_filename ;; get_exchange_rate base target) w
  = (JNull, Some (BaseNotFound base)).
Proof.
  intros Hfault Hu Hdata Hbase.
  pose proof (cache_after_load _ _ Hfault Hdata) as Hc.
  rewrite load_or_update_data_eval, (unusable_not_served _ _ Hu), refresh_eval
    in Hc, Hdata.
  destruct (truthy (JObj (collect w FAVORITE_CURRENCIES []))); [|congruence].
  unfold eval at 1, bind.
  destruct (load_or_update_data default_filename w) as [data w'] eqn:Hrun.
  assert (Hw' : w' = exec (load_or_update_data default_filename) w)
    by (unfold exec; now rewrite Hrun).
  rewrite get_exchange_rate_run. simpl fst. subst w'. rewrite Hc.
  rewrite exchange_rate_try_no_base; [reflexivity|].
  apply dict_get_None. intros Hin. apply collect_keys in Hin. tauto.
Qed.

Lemma refresh_drops_failed_bases_witness :
  eval (load_or_update_data default_filename ;; get_exchange_rate "EUR" "USD")
       stale_world
  = (JNull, Some (BaseNotFound "EUR")).
Proof.
  apply refresh_drops_failed_bases; [reflexivity | reflexivity | discriminate |].
  intros [_ H]. now apply H.
Defined.

End StorageProperties.

(** ** The rate provider *)

Section Provider.

Lemma rate_reply_success r :
  rate_reply r <> JNull ->
  exists d, r = Reply 200 (Some (JObj d))
            /\ dict_get "result" d = Some (JStr "success").
Proof.
  destruct r as [|status [data|]]; simpl; try congruence;
    destruct (Z.eqb_spec status 200) as [->|]; simpl; try congruence.
  destruct data as [| | | | | |d]; try (simpl; congruence).
  unfold py_get. destruct (dict_get "result" d) as [v|] eqn:E;
    [|simpl; congruence].
  destruct v as [| | | |s| |]; try (simpl; congruence). unfold is_str.
  destruct (String.eqb_spec "success" s) as [<-|]; [|congruence].
  intros _. now exists d.
Qed.

Lemma rate_reply_of_success d :
  dict_get "result" d = Some (JStr "success") ->
  rate_reply (Reply 200 (Some (JObj d))) = JObj d.
Proof. intros H. simpl. now rewrite H. Qed.

(** X12. [get_currency_rate] returns data exactly when the reply has
    status 200 and a body that decodes to a dict whose ["result"] is
    ["success"], and then it returns that dict unchanged; a transport
    failure, another status, a body that is not JSON or not a dict, and
    any other ["result"] all give [None]. *)
Theorem get_currency_rate_success code w :
  (eval (get_currency_rate code) w <> JNull <->
   exists d, net w code = Reply 200 (Some (JObj d))
             /\ dict_get "result" d = Some (JStr "success"))
  /\ (forall d, net w code = Reply 200 (Some (JObj d)) ->
                dict_get "result" d = Some (JStr "success") ->
                eval (get_currency_rate code) w = JObj d).
Proof.
  unfold eval. rewrite get_currency_rate_run. simpl fst. unfold fetched.
  split; [split|].
  - apply rate_reply_success.
  - intros (d & -> & Hres). now rewrite rate_reply_of_success.
  - intros d -> Hres. now apply rate_reply_of_success.
Qed.

Lemma get_currency_rate_success_witness :
  eval (get_currency_rate "USD") stale_world = usd_rates_new.
Proof.
  exact (proj2 (get_currency_rate_success "USD" stale_world)
               [("result", JStr "success");
                ("rates", JObj [("USD", JInt 1); ("EUR", JFloat 0.9);
                                ("RUB", JFloat 95)])]
               eq_refl eq_refl).
Defined.

(** X13. [update_currency_rates] makes exactly one request per currency of
    the watch-list, in its order, whatever the replies are, and touches no
    file. *)
Theorem update_currency_rates_io w :
  trace (exec update_currency_rates w)
  = (trace w ++ [EvFetch "USD"; EvFetch "EUR"; EvFetch "GBP"; EvFetch "RUB"])%list
  /\ fs (exec update_currency_rates w) = fs w.
Proof. unfold exec. rewrite update_currency_rates_run. now split. Qed.

Lemma dict_keys_set_new k v d :
  dict_get k d = None -> dict_keys (dict_set k v d) = (dict_keys d ++ [k])%list.
Proof.
  induction d as [|[k' v'] d IH]; simpl; [reflexivity|].
  destruct (String.eqb_spec k k'); [discriminate|].
  intros H. simpl. now rewrite IH.
Qed.

Lemma collect_keys_order w codes : forall acc,
  List.NoDup codes ->
  (forall c, In c codes -> dict_get c acc = None) ->
  dict_keys (collect w codes acc)
  = (dict_keys acc ++ List.filter (fun c => truthy (fetched w c)) codes)%list.
Proof.
  induction codes as [|k rest IH]; intros acc Hnd Hfresh.
  - simpl. now rewrite app_nil_r.
  - change (collect w (k :: rest) acc) with
      (collect w rest
         (if truthy (fetched w k) then dict_set k (fetched w k) acc else acc)).
    apply List.NoDup_cons_iff in Hnd as [Hk Hnd]. simpl List.filter.
    destruct (truthy (fetched w k)).
    + rewrite IH; [|exact Hnd|].
      * rewrite dict_keys_set_new by (apply Hfresh; now left).
        now rewrite <- app_assoc.
      * intros c Hc. rewrite dict_get_set.
        destruct (String.eqb_spec c k) as [->|_]; [contradiction|].
        apply Hfresh. now right.
    + apply IH; [exact Hnd|]. intros c Hc. apply Hfresh. now right.
Qed.

(** X14. The dict [update_currency_rates] returns lists the currencies
    whose request succeeded in the order of the watch-list, each once. *)
Theorem update_currency_rates_keys w :
  exists d,
    eval update_currency_rates w = JObj d
    /\ dict_keys d
       = List.filter (fun c => truthy (fetched w c)) FAVORITE_CURRENCIES
    /\ List.NoDup (dict_keys d).
Proof.
  exists (collect w FAVORITE_CURRENCIES []).
  unfold eval. rewrite update_currency_rates_run.
  assert (Hnd : List.NoDup FAVORITE_CURRENCIES).
  { unfold FAVORITE_CURRENCIES.
    repeat (apply List.NoDup_cons; [simpl; intuition discriminate|]).
    apply List.NoDup_nil. }
  split; [reflexivity|].
  assert (Hkeys : dict_keys (collect w FAVORITE_CURRENCIES [])
          = List.filter (fun c => truthy (fetched w c)) FAVORITE_CURRENCIES)
    by (now rewrite collect_keys_order).
  split; [exact Hkeys|]. rewrite Hkeys. now apply List.NoDup_filter.
Qed.

End Provider.

(** ** The lookups on any cache content *)

Section AnyCache.

(** X15. Whatever the cache file holds, a rate lookup that reports an
    error returns no value with it. *)
Theorem lookup_error_has_no_value w base target e :
  snd (eval (get_exchange_rate base target) w) = Some e ->
  fst (eval (get_exchange_rate base target) w) = JNull.
Proof.
  unfold eval. rewrite get_exchange_rate_run. simpl fst.
  destruct (exchange_rate_try (cache_value w default_filename) base target)
    as [[v err]|] eqn:E; simpl; [|reflexivity].
  intros ->. now apply exchange_rate_try_error in E.
Qed.

Lemma lookup_error_has_no_value_witness :
  fst (eval (get_exchange_rate "USD" "GBP") fresh_world) = JNull.
Proof.
  exact (lookup_error_has_no_value fresh_world "USD" "GBP"
           (TargetNotFound "GBP") eq_refl).
Defined.

(** X16. When the cache file is missing, does not decode, or decodes to an
    empty or false value, every rate lookup and conversion reports
    [BaseNotFound] and the listing is empty. *)
Theorem lookups_without_cache w amount base target :
  truthy (cache_value w default_filename) = false ->
  eval (get_exchange_rate base target) w = (JNull, Some (BaseNotFound base))
  /\ eval (convert_currency amount base target) w
     = Ok (JNull, Some (BaseNotFound base))
  /\ eval get_available_currencies w = [].
Proof.
  intros Hfalse.
  assert (Hrate : eval (get_exchange_rate base target) w
                  = (JNull, Some (BaseNotFound base))).
  { unfold eval. rewrite get_exchange_rate_run. simpl fst.
    unfold exchange_rate_try. now rewrite Hfalse. }
  split; [exact Hrate|]. split.
  - now rewrite convert_of_rate, Hrate.
  - unfold eval. rewrite get_available_currencies_run. simpl fst.
    unfold available_try. now rewrite Hfalse.
Qed.

Lemma lookups_without_cache_witness :
  eval (get_exchange_rate "USD" "EUR") garbled_world
  = (JNull, Some (BaseNotFound "USD")).
Proof.
  exact (proj1 (lookups_without_cache garbled_world 1 "USD" "EUR" eq_refl)).
Defined.

(** X17. When the entry of the base has no ["rates"] item, or is not a
    dict, the rate lookup reports the exception as its generic error,
    not [TargetNotFound]. *)
Theorem lookup_entry_without_rates w d base target entry e :
  cache_value w default_filename = JObj d ->
  dict_get base d = Some entry ->
  py_getitem entry "rates" = Raise e ->
  eval (get_exchange_rate base target) w = (JNull, Some (LookupFailed e)).
Proof.
  intros Hcache Hb Hr. unfold eval. rewrite get_exchange_rate_run, Hcache.
  simpl fst. unfold exchange_rate_try.
  rewrite (dict_get_nonempty _ _ _ Hb). simpl.
  rewrite (dict_has_true _ _ _ Hb), Hb. simpl. now rewrite Hr.
Qed.

Lemma lookup_entry_without_rates_witness :
  eval (get_exchange_rate "USD" "EUR")
       (cache_of (JObj [("USD", JObj [("result", JStr "success")])]))
  = (JNull, Some (LookupFailed (KeyError "rates"))).
Proof.
  exact (lookup_entry_without_rates
           (cache_of (JObj [("USD", JObj [("result", JStr "success")])]))
           [("USD", JObj [("result", JStr "success")])]
           "USD" "EUR" (JObj [("result", JStr "success")]) (KeyError "rates")
           eq_refl eq_refl eq_refl).
Defined.

(** X18. [convert_currency] raises only when the lookup found a rate that
    is not a number, and then only [TypeError] or [OverflowError]; a
    lookup error is passed on as a returned pair. *)
Theorem convert_currency_raises w amount base target e :
  eval (convert_currency amount base target) w = Raise e ->
  snd (eval (get_exchange_rate base target) w) = None
  /\ rate_value (fst (eval (get_exchange_rate base target) w)) = None
  /\ (e = TypeError \/ e = OverflowError).
Proof.
  rewrite convert_of_rate.
  destruct (eval (get_exchange_rate base target) w) as [rate [err|]];
    simpl; [discriminate|].
  destruct rate as [|b|z|f|s|l|d]; simpl; try discriminate;
    try (intros [= <-]; now auto).
  destruct (float_of_int z); simpl; [discriminate|].
  intros [= <-]. now auto.
Qed.

Lemma convert_currency_raises_witness :
  snd (eval (get_exchange_rate "USD" "EUR")
         (cache_of (JObj [("USD", JObj [("rates", JObj [("EUR", JNull)])])])))
  = None.
Proof.
  exact (proj1 (convert_currency_raises
                  (cache_of (JObj [("USD", JObj [("rates", JObj [("EUR", JNull)])])]))
                  100 "USD" "EUR" TypeError eq_refl)).
Defined.

End AnyCache.

(** ** The prompts and the listing of [cli.py] *)

Section PromptProperties.

Lemma available_after_log e w :
  eval get_available_currencies (log e w) = eval get_available_currencies w.
Proof. unfold eval. now rewrite !get_available_currencies_run. Qed.

Lemma get_valid_currency_step strip_upper line rest w :
  get_valid_currency strip_upper (line :: rest) w =
  if String.eqb (strip_upper line) "" then get_valid_currency strip_upper rest w
  else if existsb (String.eqb (strip_upper line))
                  (eval get_available_currencies w)
       then (Some (strip_upper line), rest, log (EvRead default_filename) w)
       else get_valid_currency strip_upper rest (log (EvRead default_filename) w).
Proof.
  simpl. destruct (String.eqb (strip_upper line) ""); [reflexivity|].
  unfold bind, eval. rewrite get_available_currencies_run. simpl fst.
  now destruct (existsb _ _).
Qed.

(** X19. A code returned by [get_valid_currency] is not empty, is in the
    list [get_available_currencies] gives, and is the normalised form of
    the last line the prompt consumed. *)
Theorem get_valid_currency_listed strip_upper stdin : forall w currency rest,
  eval (get_valid_currency strip_upper stdin) w = (Some currency, rest) ->
  currency <> ""
  /\ In currency (eval get_available_currencies w)
  /\ exists skipped line,
       stdin = (skipped ++ line :: rest)%list /\ currency = strip_upper line.
Proof.
  induction stdin as [|line tl IH]; intros w currency rest; [discriminate|].
  unfold eval. rewrite get_valid_currency_step.
  destruct (String.eqb_spec (strip_upper line) "") as [|Hne].
  - intros H. destruct (IH _ _ _ H) as (H1 & H2 & skipped & l & -> & H3).
    split; [exact H1|]. split; [exact H2|]. now exists (line :: skipped), l.
  - destruct (existsb _ _) eqn:Hex.
    + simpl. intros [= <- <-]. split; [exact Hne|].
      split; [now apply existsb_eqb_In|]. now exists [], line.
    + intros H. destruct (IH _ _ _ H) as (H1 & H2 & skipped & l & -> & H3).
      rewrite available_after_log in H2.
      split; [exact H1|]. split; [exact H2|]. now exists (line :: skipped), l.
Qed.

Lemma get_valid_currency_listed_witness :
  In "EUR" (eval get_available_currencies fresh_world).
Proof.
  exact (proj1 (proj2 (get_valid_currency_listed sample_strip_upper
                         ["  "; "xyz"; " eur "; "rub"] fresh_world
                         "EUR" ["rub"] eq_refl))).
Defined.

(** X20. While [get_available_currencies] gives the empty list, as it does
    without a readable cache, [get_valid_currency] accepts no line at all:
    it reads all the input there is and ends in [EOFError]. *)
Theorem get_valid_currency_without_data strip_upper stdin : forall w,
  eval get_available_currencies w = [] ->
  eval (get_valid_currency strip_upper stdin) w = (None, []).
Proof.
  induction stdin as [|line tl IH]; intros w Hnone; [reflexivity|].
  unfold eval. rewrite get_valid_currency_step, Hnone. simpl existsb.
  destruct (String.eqb (strip_upper line) ""); [now apply IH|].
  apply IH. now rewrite available_after_log.
Qed.

Lemma get_valid_currency_without_data_witness :
  eval (get_valid_currency sample_strip_upper ["usd"; "EUR"; "rub"]) empty_world
  = (None, []).
Proof.
  apply get_valid_currency_without_data. reflexivity.
Defined.

(** X21. An amount returned by [get_valid_amount] is the value of the last
    line consumed and fails the test [amount <= 0]; lines that are not
    numbers and amounts that pass the test are skipped. *)
Theorem get_valid_amount_positive py_float stdin : forall amount rest,
  get_valid_amount py_float stdin = (Some amount, rest) ->
  PrimFloat.leb amount 0 = false
  /\ exists skipped line,
       stdin = (skipped ++ line :: rest)%list /\ py_float line = Some amount.
Proof.
  induction stdin as [|line tl IH]; intros amount rest; [discriminate|].
  simpl. destruct (py_float line) as [a|] eqn:Hline.
  - destruct (PrimFloat.leb a 0) eqn:Hle.
    + intros H. destruct (IH _ _ H) as (H1 & skipped & l & -> & H2).
      split; [exact H1|]. now exists (line :: skipped), l.
    + intros [= <- <-]. split; [exact Hle|]. now exists [], line.
  - intros H. destruct (IH _ _ H) as (H1 & skipped & l & -> & H2).
    split; [exact H1|]. now exists (line :: skipped), l.
Qed.

Lemma get_valid_amount_positive_witness :
  PrimFloat.leb 100 0 = false.
Proof.
  exact (proj1 (get_valid_amount_positive sample_float
                  ["abc"; "-5"; "0"; "100"; "7"] 100%float ["7"] eq_refl)).
Defined.

Lemma firstn_firstn_skipn {A} (a b : nat) : forall l : list A,
  (firstn a l ++ firstn b (skipn a l))%list = firstn (a + b) l.
Proof.
  induction a as [|a IH]; intros l; [reflexivity|].
  destruct l as [|x l]; simpl.
  - now rewrite firstn_nil.
  - now rewrite IH.
Qed.

Lemma display_rows_concat (currencies : list string) (m : nat) :
  concat (map (fun k => firstn 10 (skipn (10 * k) currencies)) (seq 0 m))
  = firstn (10 * m) currencies.
Proof.
  induction m as [|m IH]; [reflexivity|].
  rewrite seq_S, map_app, concat_app, IH. simpl concat.
  rewrite app_nil_r, firstn_firstn_skipn. f_equal. lia.
Qed.

(** X22. The rows of [display_available_currencies] hold every listed
    currency once, in order, and each row has between 1 and 10 codes. *)
Theorem display_rows_cover w :
  concat (eval display_available_currencies w) = eval get_available_currencies w
  /\ Forall (fun row => (1 <= length row <= 10)%nat)
            (eval display_available_currencies w).
Proof.
  unfold eval, display_available_currencies, bind.
  destruct (get_available_currencies w) as [currencies w']. simpl fst.
  unfold display_rows.
  pose proof (Nat.div_mod_eq (length currencies + 9) 10) as Hdiv.
  pose proof (Nat.mod_upper_bound (length currencies + 9) 10) as Hmod.
  split.
  - rewrite display_rows_concat. apply firstn_all2. lia.
  - apply List.Forall_forall. intros row Hrow.
    apply in_map_iff in Hrow as (k & <- & Hk). apply in_seq in Hk.
    rewrite length_firstn, length_skipn. lia.
Qed.

End PromptProperties.

(** ** The search of [cli.py] *)

Section Search.

#[local] Instance str_le_total : Total str_le.
Proof. intros a b. apply String.leb_total. Qed.

Lemma search_currency_interface_run strip_upper line rest w :
  eval (search_currency_interface strip_upper (line :: rest)) w =
  (Some (py_sorted (List.filter (str_contains (strip_upper line))
                                (eval get_available_currencies w))),
   rest).
Proof.
  unfold eval, search_currency_interface, bind.
  now destruct (get_available_currencies w).
Qed.

Lemma str_contains_empty s : str_contains "" s = true.
Proof. now destruct s. Qed.

Lemma filter_all {A} (f : A -> bool) (l : list A) :
  (forall x, f x = true) -> List.filter f l = l.
Proof.
  intros Hf. induction l as [|x l IH]; [reflexivity|].
  simpl. now rewrite Hf, IH.
Qed.

(** X23. The codes [search_currency_interface] prints are in ascending
    order and are, up to that order, the listed currencies that contain
    the normalised search term. *)
Theorem search_sorted_matches strip_upper line rest w :
  exists printed,
    eval (search_currency_interface strip_upper (line :: rest)) w
    = (Some printed, rest)
    /\ Sorted str_le printed
    /\ Permutation printed
         (List.filter (str_contains (strip_upper line))
                      (eval get_available_currencies w)).
Proof.
  rewrite search_currency_interface_run. eexists. split; [reflexivity|].
  split; [apply Sorted_merge_sort, _ | apply merge_sort_Permutation].
Qed.

(** X24. A search line that normalises to the empty string matches every
    listed currency. *)
Theorem search_blank_lists_all strip_upper line rest w :
  strip_upper line = "" ->
  exists printed,
    eval (search_currency_interface strip_upper (line :: rest)) w
    = (Some printed, rest)
    /\ Permutation printed (eval get_available_currencies w).
Proof.
  intros Hblank. rewrite search_currency_interface_run, Hblank.
  eexists. split; [reflexivity|].
  rewrite (filter_all _ _ str_contains_empty). apply merge_sort_Permutation.
Qed.

Lemma search_blank_lists_all_witness :
  exists printed,
    eval (search_currency_interface sample_strip_upper ["   "; "1"]) fresh_world
    = (Some printed, ["1"])
    /\ Permutation printed ["USD"; "EUR"; "RUB"].
Proof.
  exact (search_blank_lists_all sample_strip_upper "   " ["1"] fresh_world
           eq_refl).
Defined.

End Search.
